(** * HAR performance analyser: the analysis engine of [analysis.py]

    A shallow embedding of the class [HARPerformanceAnalyzer]:
    [_get_resource_type], [analyze_request_details],
    [analyze_page_timings], [generate_summary] and
    [identify_bottlenecks], then [export_to_excel], the loop of
    [batch_analyze_har_files], [_load_har_file] and [__init__], followed by
    the properties of the specification that concern them and by further
    properties of the code.

    Conventions of the embedding.
    - A Python [str] is the [string] of the bytes of its UTF-8 encoding;
      the patterns the code searches for are all ASCII, [lower] is the
      lowering of the ASCII letters, and a slice counts characters, that
      is, UTF-8 sequences.
    - A Python number is a [pynum]: an [int] carries a [Z], a [float]
      carries the rational number it stands for.  Sums, differences,
      quotients and means of floats are exact in the embedding, where the
      code rounds each to a binary float; [round(x, 2)] keeps an [int] and
      takes a [float] to the nearest hundredth, ties to even.  The
      properties stated of float values are those that the rounding of the
      code does not change (signs, bounds across whole numbers, which of
      two shapes a value has).  The exceptions of integer arithmetic that
      leaves the range of the floats are embedded where the code meets
      them: [request_record_checked], [df_nlargest].
    - A [dict] read with [.get] is a [gmap] with string keys.
    - A raised exception is a value [Raise e] of the [result] type. *)

From Stdlib Require Import ZArith QArith Qround String Ascii List Lia Lqa DecimalString.
From stdpp Require Import base option list strings gmap.

Import ListNotations.
Local Open Scope string_scope.
Local Open Scope list_scope.

(** ** Python values *)

Module Py.

(** *** Exceptions and fallible computations *)

Inductive exn : Type :=
| KeyError (key : string)
| TypeError (what : string)
| AttributeError (attr : string)
| ValueError (what : string)
| OverflowError.

Inductive result (A : Type) : Type :=
| Ok (a : A)
| Raise (e : exn).
Arguments Ok {A} a.
Arguments Raise {A} e.

Definition bind {A B : Type} (m : result A) (k : A -> result B) : result B :=
  match m with
  | Ok a => k a
  | Raise e => Raise e
  end.

(** [try: m except: h] *)
Definition try_except {A : Type} (m : result A) (h : exn -> A) : A :=
  match m with
  | Ok a => a
  | Raise e => h e
  end.

(** *** Numbers *)

Inductive pynum : Type :=
| PInt (z : Z)
| PFloat (q : Q).

Definition to_Q (x : pynum) : Q :=
  match x with
  | PInt z => inject_Z z
  | PFloat q => q
  end.

(** [x == y], [x != y], [x > y], [x >= y] on numbers compare the values:
    [-1.0 == -1] holds. *)
Definition num_eqb (x y : pynum) : bool := Qeq_bool (to_Q x) (to_Q y).
Definition num_neb (x y : pynum) : bool := negb (num_eqb x y).
Definition num_gtb (x y : pynum) : bool := negb (Qle_bool (to_Q x) (to_Q y)).
Definition num_geb (x y : pynum) : bool := Qle_bool (to_Q y) (to_Q x).

(** [x + y]; a sum with a float is a float, exact here. *)
Definition num_add (x y : pynum) : pynum :=
  match x, y with
  | PInt a, PInt b => PInt (a + b)
  | _, _ => PFloat (to_Q x + to_Q y)
  end.

Definition num_sub (x y : pynum) : pynum :=
  match x, y with
  | PInt a, PInt b => PInt (a - b)
  | _, _ => PFloat (to_Q x - to_Q y)
  end.

(** True division [x / n] by a non-zero integer constant: always a float,
    exact here.  The [OverflowError] of an integer quotient beyond the
    floats is in [size_overflows] below. *)
Definition num_div_const (x : pynum) (n : positive) : pynum :=
  PFloat (to_Q x / inject_Z (Zpos n)).

(** Nearest integer, ties to the even neighbour. *)
Definition round_half_even (x : Q) : Z :=
  let f := Qfloor x in
  match Qcompare (x - inject_Z f) (1 # 2) with
  | Lt => f
  | Gt => (f + 1)%Z
  | Eq => if Z.even f then f else (f + 1)%Z
  end.

(** [round(x, 2)] *)
Definition round2 (x : pynum) : pynum :=
  match x with
  | PInt z => PInt z
  | PFloat q => PFloat (round_half_even (q * 100) # 100)
  end.

(** *** Strings *)

(** [sub in s] *)
Fixpoint contains (sub s : string) : bool :=
  String.prefix sub s ||
  match s with
  | EmptyString => false
  | String _ s' => contains sub s'
  end.

(** [s.endswith(suf)] *)
Definition endswith (s suf : string) : bool :=
  let n := String.length s in
  let k := String.length suf in
  (k <=? n)%nat && String.eqb (String.substring (n - k) k s) suf.

(** [s.endswith((suf1, suf2, ...))] *)
Definition endswith_any (s : string) (sufs : list string) : bool :=
  existsb (endswith s) sufs.

Definition lower_ascii (c : ascii) : ascii :=
  let n := nat_of_ascii c in
  if ((65 <=? n) && (n <=? 90))%nat then ascii_of_nat (n + 32) else c.

(** [s.lower()] *)
Fixpoint lower (s : string) : string :=
  match s with
  | EmptyString => EmptyString
  | String c s' => String (lower_ascii c) (lower s')
  end.

(** [s.split(sep)] for a non-empty [sep]: the occurrences of [sep] are
    found from the left and do not overlap.  [skip] counts the characters
    of a separator just matched that are still to be passed over; [cur]
    is the piece being read, last character first. *)
Fixpoint split_aux (sep : string) (skip : nat) (cur : list ascii)
    (s : string) : list string :=
  match s with
  | EmptyString => [string_of_list_ascii (rev cur)]
  | String c s' =>
      match skip with
      | S k => split_aux sep k cur s'
      | O =>
          if String.prefix sep s
          then string_of_list_ascii (rev cur)
                 :: split_aux sep (String.length sep - 1) [] s'
          else split_aux sep 0 (c :: cur) s'
      end
  end.

Definition split (sep s : string) : list string := split_aux sep 0 [] s.

(** [l[-1]] and [l[0]] on the result of a [split], which is never empty;
    the default stands for the [IndexError] that cannot occur. *)
Definition last_item (l : list string) : string := List.last l "".
Definition first_item (l : list string) : string := List.hd "" l.

End Py.

Import Py.

(** ** 4.1 Resource classifier *)

(** [_get_resource_type(url, content_type)]; [content_type] may be [None]. *)
Definition _get_resource_type (url : string) (content_type : option string)
    : string :=
  let content_type :=
    match content_type with
    | None => ""
    | Some "" => ""
    | Some ct => ct
    end in
  if contains "text/html" content_type then "HTML"
  else if contains "text/css" content_type then "CSS"
  else if contains "application/javascript" content_type
          || contains "text/javascript" content_type then "JS"
  else if contains "image/" content_type then "图片"
  else if contains "font/" content_type
          || contains "application/font" content_type then "字体"
  else if contains "application/json" content_type
          || endswith url ".json" then "JSON接口"
  else if contains "video/" content_type then "视频"
  else
    if endswith_any (lower url) [".js"; ".jsx"; ".ts"; ".tsx"] then "JS"
    else if endswith (lower url) ".css" then "CSS"
    else if endswith_any (lower url)
              [".jpg"; ".jpeg"; ".png"; ".gif"; ".svg"; ".webp"] then "图片"
    else if endswith_any (lower url) [".woff"; ".woff2"; ".ttf"; ".eot"]
    then "字体"
    else "其他".

(** The eight resource categories, as the code labels them. *)
Definition resource_categories : list string :=
  ["HTML"; "CSS"; "JS"; "图片"; "字体"; "JSON接口"; "视频"; "其他"].

(** ** 4.2 Request metrics extractor *)

(** *** Raw trace entries

    An entry of [log.entries] is a JSON object; a key may be missing, and a
    missing nested object is read as the empty object.  [None] in a field
    below is a missing key; a key that is there holds a value of the type
    the HAR format gives it (a text, a number, an object). *)

Record Request : Type := mkRequest {
  req_url : option string;            (* "url" *)
  req_method : option string          (* "method" *)
}.

Record Content : Type := mkContent {
  (* "mimeType": missing, or present and then [null] or a string *)
  cnt_mimeType : option (option string)
}.

Record Response : Type := mkResponse {
  resp_status : option pynum;         (* "status" *)
  resp_headersSize : option pynum;    (* "headersSize" *)
  resp_bodySize : option pynum;       (* "bodySize" *)
  resp_content : option Content       (* "content" *)
}.

Record Entry : Type := mkEntry {
  e_request : option Request;             (* "request" *)
  e_response : option Response;           (* "response" *)
  e_timings : option (gmap string pynum); (* "timings" *)
  e_time : option pynum                   (* "time" *)
}.

(** The empty object [{}] at each of the nested types. *)
Definition empty_request : Request := mkRequest None None.
Definition empty_content : Content := mkContent None.
Definition empty_response : Response := mkResponse None None None None.

(** [d.get(key, dflt)] *)
Definition dict_get {A : Type} (d : gmap string A) (key : string) (dflt : A) : A :=
  default dflt (d !! key).

(** *** Request records: one row of the request table *)

Record RequestRecord : Type := mkRecord {
  r_idx : nat;          (* "序号" *)
  r_url : string;       (* "资源URL" *)
  r_type : string;      (* "资源类型" *)
  r_method : string;    (* "请求方法" *)
  r_status : pynum;     (* "状态码" *)
  r_domain : string;    (* "域名" *)
  r_total : pynum;      (* "总耗时(ms)" *)
  r_dns : pynum;        (* "DNS解析(ms)" *)
  r_tcp : pynum;        (* "TCP连接(ms)" *)
  r_ssl : pynum;        (* "SSL握手(ms)" *)
  r_send : pynum;       (* "请求发送(ms)" *)
  r_wait : pynum;       (* "服务器等待(ms)" *)
  r_receive : pynum;    (* "响应接收(ms)" *)
  r_size : pynum;       (* "资源大小(KB)" *)
  r_slow : string;      (* "慢资源标记" *)
  r_error : string      (* "是否错误请求" *)
}.

(** The keys of the dict appended to [request_list], in order. *)
Definition record_keys : list string :=
  ["序号"; "资源URL"; "资源类型"; "请求方法"; "状态码"; "域名";
   "总耗时(ms)"; "DNS解析(ms)"; "TCP连接(ms)"; "SSL握手(ms)";
   "请求发送(ms)"; "服务器等待(ms)"; "响应接收(ms)"; "资源大小(KB)";
   "慢资源标记"; "是否错误请求"].

(** Lines 96-102: the domain of a URL.  On a [str] neither [in] nor
    [split] raises, so the handler of the [try] is never entered. *)
Definition extract_domain (url : string) : string :=
  try_except
    (if contains "//" url
     then Ok (first_item (split "/" (last_item (split "//" url))))
     else Ok "unknown")
    (fun _ => "unknown").

(** Lines 105-110: [timing.get(k, -1) if timing.get(k, -1) != -1 else 0] *)
Definition phase_time (timing : gmap string pynum) (k : string) : pynum :=
  if num_neb (dict_get timing k (PInt (-1))) (PInt (-1))
  then dict_get timing k (PInt (-1))
  else PInt 0.

(** The body of the loop of [analyze_request_details]. *)
Definition request_record (idx : nat) (entry : Entry) : RequestRecord :=
  let request := default empty_request (e_request entry) in
  let response := default empty_response (e_response entry) in
  let timing := default ∅ (e_timings entry) in
  let url := default "" (req_url request) in
  let domain := extract_domain url in
  let dns_time := phase_time timing "dns" in
  let tcp_time := phase_time timing "connect" in
  let ssl_time := phase_time timing "ssl" in
  let send_time := phase_time timing "send" in
  let wait_time := phase_time timing "wait" in
  let receive_time := phase_time timing "receive" in
  let total_time := default (PInt 0) (e_time entry) in
  let headers_size := default (PInt 0) (resp_headersSize response) in
  let body_size := default (PInt 0) (resp_bodySize response) in
  let total_size :=
    if num_gtb (num_add headers_size body_size) (PInt 0)
    then num_div_const (num_add headers_size body_size) 1024
    else PInt 0 in
  let is_slow := if num_gtb total_time (PInt 500) then "是" else "否" in
  let mime :=
    default (Some "")
      (cnt_mimeType (default empty_content (resp_content response))) in
  {| r_idx := idx;
     r_url := url;
     r_type := _get_resource_type url mime;
     r_method := default "" (req_method request);
     r_status := default (PInt 0) (resp_status response);
     r_domain := domain;
     r_total := round2 total_time;
     r_dns := round2 dns_time;
     r_tcp := round2 tcp_time;
     r_ssl := round2 ssl_time;
     r_send := round2 send_time;
     r_wait := round2 wait_time;
     r_receive := round2 receive_time;
     r_size := round2 total_size;
     r_slow := is_slow;
     r_error :=
       if num_geb (default (PInt 0) (resp_status response)) (PInt 400)
       then "是" else "否" |}.

(** [for idx, entry in enumerate(self.entries, 1): request_list.append(...)] *)
Fixpoint analyze_loop (idx : nat) (entries : list Entry)
    (request_list : list RequestRecord) : list RequestRecord :=
  match entries with
  | [] => request_list
  | entry :: rest =>
      analyze_loop (S idx) rest (request_list ++ [request_record idx entry])
  end.

(** Stable sort, greatest first: what [value_counts] and [nlargest] (with
    [keep="first"]) do to rows of equal rank. *)
Fixpoint insert_desc {A : Type} (gtb : A -> A -> bool) (x : A) (l : list A)
    : list A :=
  match l with
  | [] => [x]
  | y :: ys => if gtb y x then y :: insert_desc gtb x ys else x :: y :: ys
  end.

Definition sort_desc {A : Type} (gtb : A -> A -> bool) (l : list A) : list A :=
  fold_right (insert_desc gtb) [] l.

(** *** Data frames

    [pd.DataFrame(rows)] on a list of dicts: the columns are the keys of the
    dicts, so a frame built from the empty list has no column at all. *)

Record DataFrame : Type := mkDataFrame {
  df_columns : list string;
  df_rows : list RequestRecord
}.

Definition DataFrame_of (rows : list RequestRecord) : DataFrame :=
  {| df_columns := match rows with [] => [] | _ :: _ => record_keys end;
     df_rows := rows |}.

(** [len(df)] *)
Definition df_len (df : DataFrame) : nat := length (df_rows df).

(** [df[col]]: the column [col], read with [proj]; [KeyError] when the
    frame has no such column. *)
Definition df_getitem {A : Type} (df : DataFrame) (col : string)
    (proj : RequestRecord -> A) : result (list A) :=
  if bool_decide (col ∈ df_columns df)
  then Ok (map proj (df_rows df))
  else Raise (KeyError col).

(** The integers of the numeric column types. *)
Definition int64_min : Z := - 2 ^ 63.
Definition int64_max : Z := 2 ^ 63 - 1.
Definition uint64_max : Z := 2 ^ 64 - 1.

Definition beyond_64_bits (x : pynum) : bool :=
  match x with
  | PInt z => (z <? int64_min)%Z || (uint64_max <? z)%Z
  | PFloat _ => false
  end.

Definition unsigned_only (x : pynum) : bool :=
  match x with
  | PInt z => (int64_max <? z)%Z
  | PFloat _ => false
  end.

Definition negative_int (x : pynum) : bool :=
  match x with
  | PInt z => (z <? 0)%Z
  | PFloat _ => false
  end.

(** Whether a column of numbers gets a numeric type ([int64], [uint64] or
    [float64]) when the frame is built.  It gets the type [object] when it
    is empty, when an integer is outside the 64-bit ranges, and when it
    holds both an integer above the signed range and a negative one. *)
Definition numeric_dtype (col : list pynum) : bool :=
  match col with
  | [] => false
  | _ :: _ =>
      negb (existsb beyond_64_bits col)
      && negb (existsb unsigned_only col && existsb negative_int col)
  end.

(** [df.nlargest(n, col)]: the [n] rows greatest in the column [col], read
    with [proj]; of equal rows the earlier comes first.  [KeyError] without
    the column, [TypeError] when the column is of type [object]. *)
Definition df_nlargest (n : nat) (df : DataFrame) (col : string)
    (proj : RequestRecord -> pynum) : result DataFrame :=
  if bool_decide (col ∈ df_columns df)
  then if numeric_dtype (map proj (df_rows df))
       then Ok {| df_columns := df_columns df;
                  df_rows := firstn n (sort_desc
                                         (fun a b => num_gtb (proj a) (proj b))
                                         (df_rows df)) |}
       else Raise (TypeError "nlargest")
  else Raise (KeyError col).

(** The table of [analyze_request_details] for entries on which the loop
    raises nothing. *)
Definition analyze_request_details (entries : list Entry) : DataFrame :=
  DataFrame_of (analyze_loop 1 entries []).

(** *** The exception of the loop

    On the numbers of an entry the body of the loop raises in one place,
    lines 114-116: in the sum of an integer and a float the integer is made
    a float, and the quotient of an integer by 1024 is a float; both raise
    [OverflowError] beyond the greatest float. *)

(** The least integer that is not made a float: halfway between the
    greatest float, 2^1024 - 2^971, and 2^1024. *)
Definition float_limit : Z := 2 ^ 1024 - 2 ^ 970.

Definition size_overflows (entry : Entry) : bool :=
  let response := default empty_response (e_response entry) in
  let headers_size := default (PInt 0) (resp_headersSize response) in
  let body_size := default (PInt 0) (resp_bodySize response) in
  match headers_size, body_size with
  | PInt a, PInt b => (0 <? a + b)%Z && (float_limit * 1024 <=? a + b)%Z
  | PInt a, PFloat _ => (float_limit <=? Z.abs a)%Z
  | PFloat _, PInt b => (float_limit <=? Z.abs b)%Z
  | PFloat _, PFloat _ => false
  end.

(** The body of the loop, with its exception. *)
Definition request_record_checked (idx : nat) (entry : Entry)
    : result RequestRecord :=
  if size_overflows entry then Raise OverflowError
  else Ok (request_record idx entry).

Fixpoint analyze_loop_checked (idx : nat) (entries : list Entry)
    (request_list : list RequestRecord) : result (list RequestRecord) :=
  match entries with
  | [] => Ok request_list
  | entry :: rest =>
      bind (request_record_checked idx entry)
           (fun record =>
              analyze_loop_checked (S idx) rest (request_list ++ [record]))
  end.

(** [analyze_request_details()], with [self.entries]: the table, or the
    exception of the first entry on which the loop raises. *)
Definition run_analyze_request_details (entries : list Entry)
    : result DataFrame :=
  bind (analyze_loop_checked 1 entries [])
       (fun request_list => Ok (DataFrame_of request_list)).

(** Sample entries. *)
Definition entry_slow_ok : Entry :=
  mkEntry (Some (mkRequest (Some "https://cdn.example.com/app.js") (Some "GET")))
          (Some (mkResponse (Some (PInt 200)) (Some (PInt 1024)) (Some (PInt 3072))
                            (Some (mkContent (Some (Some ""))))))
          (Some (<["dns" := PInt (-1)]> (<["wait" := PFloat (1299 # 1024)]> ∅)))
          (Some (PInt 600)).

(** ** 4.3 Page timing extractor *)

(** A value found in the page-level data of the trace. *)
Inductive pyval : Type :=
| VNone
| VNum (x : pynum)
| VStr (s : string).

(** A cell of an output table: a number or a text. *)
Inductive cell : Type :=
| CNum (x : pynum)
| CStr (s : string).

(** A page object of the HAR parsing library, as far as the code reads it.
    Reading an attribute may raise (the attribute is missing, or it is not a
    mapping with [.get]). *)
Record HarPage : Type := mkHarPage {
  page_timings : result (gmap string pyval);      (* page.timings *)
  page_pageTimings : result (gmap string pyval);  (* page.pageTimings *)
  page_url : result string                        (* page.url *)
}.

(** Operators of Python on the values above. *)
Definition truthy (v : pyval) : bool :=
  match v with
  | VNone => false
  | VNum x => num_neb x (PInt 0)
  | VStr s => negb (String.eqb s "")
  end.

Definition py_gt (v : pyval) (n : pynum) : result bool :=
  match v with
  | VNum x => Ok (num_gtb x n)
  | _ => Raise (TypeError ">")
  end.

Definition py_ge (v : pyval) (n : pynum) : result bool :=
  match v with
  | VNum x => Ok (num_geb x n)
  | _ => Raise (TypeError ">=")
  end.

Definition py_sub (a b : pyval) : result pyval :=
  match a, b with
  | VNum x, VNum y => Ok (VNum (num_sub x y))
  | _, _ => Raise (TypeError "-")
  end.

Definition py_add_const (a : pyval) (n : pynum) : result pynum :=
  match a with
  | VNum x => Ok (num_add x n)
  | _ => Raise (TypeError "+")
  end.

Definition py_round2 (v : pyval) : result pynum :=
  match v with
  | VNum x => Ok (round2 x)
  | _ => Raise (TypeError "round")
  end.

(** [v and v > 0] *)
Definition truthy_and_positive (v : pyval) : result bool :=
  if truthy v then py_gt v (PInt 0) else Ok false.

Notation "'do' x <- m ; k" := (bind m (fun x => k))
  (at level 10, x name, m at level 100, k at level 200,
   format "'[v' 'do'  x  <-  m ; '/' k ']'").

(** The reduced shape: the URL alone, every other field unavailable. *)
Definition degraded_page_timings (url : string) : gmap string cell :=
  <["页面URL" := CStr url]>
  (<["导航开始时间" := CStr "不可用"]>
  (<["DOM就绪时间(ms)" := CStr "不可用"]>
  (<["页面完全加载时间(ms)" := CStr "不可用"]>
  (<["首次内容绘制FCP(ms)" := CStr "不可用"]>
  (<["首屏加载时间(ms)" := CStr "不可用"]> ∅))))).

(** The minimal shape, when there is no entry either. *)
Definition no_page_timings : gmap string cell :=
  <["提示" := CStr "未获取到页面时序数据"]> ∅.

(** [first_entry.get("request", {}).get("url", "Unknown URL")] *)
Definition first_entry_url (first_entry : Entry) : string :=
  default "Unknown URL" (req_url (default empty_request (e_request first_entry))).

(** Lines 147-161 and, identically, lines 189-201. *)
Definition page_timings_fallback (entries : list Entry) : gmap string cell :=
  match entries with
  | first_entry :: _ => degraded_page_timings (first_entry_url first_entry)
  | [] => no_page_timings
  end.

Section PageTiming.

(** [datetime.fromtimestamp(t).strftime("%Y-%m-%d %H:%M:%S")]: the local
    time of the machine, which raises on a time stamp out of range. *)
Variable strftime_local : Q -> result string.

(** The body of the [try] of [analyze_page_timings], lines 164-185. *)
Definition read_page_timings (page : HarPage) : result (gmap string cell) :=
  do timings <- page_timings page;
  let navigation_start := dict_get timings "navigationStart" (VNum (PInt 0)) in
  do started <- py_gt navigation_start (PInt 0);
  do dom_content_loaded <-
    (if started
     then py_sub (dict_get timings "domContentLoadedEventEnd" (VNum (PInt 0)))
                 navigation_start
     else Ok (VNum (PInt 0)));
  do started <- py_gt navigation_start (PInt 0);
  do load_event <-
    (if started
     then py_sub (dict_get timings "loadEventEnd" (VNum (PInt 0)))
                 navigation_start
     else Ok (VNum (PInt 0)));
  let first_contentful_paint :=
    try_except
      (do pt <- page_pageTimings page;
       Ok (dict_get pt "_firstContentfulPaint" (VNum (PInt 0))))
      (fun _ => VNum (PInt 0)) in
  do url <- page_url page;
  do has_start <- truthy_and_positive navigation_start;
  do nav_text <-
    (if has_start
     then do t <- strftime_local
                 (match navigation_start with
                  | VNum x => (to_Q x / 1000)%Q
                  | _ => 0%Q
                  end);
          Ok (CStr t)
     else Ok (CStr "无"));
  do dom_ok <- py_ge dom_content_loaded (PInt 0);
  do dom_cell <-
    (if dom_ok then do x <- py_round2 dom_content_loaded; Ok (CNum x)
     else Ok (CNum (PInt 0)));
  do load_ok <- py_ge load_event (PInt 0);
  do load_cell <-
    (if load_ok then do x <- py_round2 load_event; Ok (CNum x)
     else Ok (CNum (PInt 0)));
  do has_fcp <- truthy_and_positive first_contentful_paint;
  do fcp_cell <-
    (if has_fcp then do x <- py_round2 first_contentful_paint; Ok (CNum x)
     else Ok (CStr "未捕获"));
  do has_fcp <- truthy_and_positive first_contentful_paint;
  do screen_cell <-
    (if has_fcp
     then do y <- py_add_const first_contentful_paint (PInt 300);
          Ok (CNum (round2 y))
     else Ok (CStr "未捕获"));
  Ok (<["页面URL" := CStr url]>
      (<["导航开始时间" := nav_text]>
      (<["DOM就绪时间(ms)" := dom_cell]>
      (<["页面完全加载时间(ms)" := load_cell]>
      (<["首次内容绘制FCP(ms)" := fcp_cell]>
      (<["首屏加载时间(ms)" := screen_cell]> ∅)))))).

(** [analyze_page_timings]; [pages] is [self.pages], [entries] is
    [self.entries].  The [print] of the handler is not modelled. *)
Definition analyze_page_timings (pages : list HarPage) (entries : list Entry)
    : gmap string cell :=
  match pages with
  | [] => page_timings_fallback entries
  | page :: _ =>
      try_except (read_page_timings page)
                 (fun _ => page_timings_fallback entries)
  end.

End PageTiming.

(** ** 4.4 Summary aggregator *)

(** [str(n)] for a count. *)
Definition str_of_nat (n : nat) : string :=
  DecimalString.NilEmpty.string_of_uint (Nat.to_uint n).

(** The distinct values of a column, in the order of their first row. *)
Fixpoint distinct (l : list string) : list string :=
  match l with
  | [] => []
  | x :: rest => x :: List.filter (fun y => negb (String.eqb x y)) (distinct rest)
  end.

(** [col.value_counts().to_dict().items()] *)
Definition value_counts (col : list string) : list (string * nat) :=
  sort_desc (fun a b => (snd b <? snd a)%nat)
    (map (fun k => (k, length (List.filter (String.eqb k) col))) (distinct col)).

(** ["; ".join([f"{k}: {v}个" for k, v in dist.items()]) if dist else "无数据"] *)
Definition dist_str (dist : list (string * nat)) : string :=
  match dist with
  | [] => "无数据"
  | _ :: _ =>
      String.concat "; "
        (map (fun kv => fst kv +:+ ": " +:+ str_of_nat (snd kv) +:+ "个") dist)
  end.

(** [col.mean()] on a column that is not empty; exact here. *)
Definition mean (col : list pynum) : pynum :=
  PFloat (fold_right Qplus 0%Q (map to_Q col) / inject_Z (Z.of_nat (length col))).

(** A byte that continues a UTF-8 sequence: 10xxxxxx. *)
Definition is_continuation (c : ascii) : bool :=
  let n := nat_of_ascii c in ((128 <=? n) && (n <? 192))%nat.

(** [len(s)]: the number of characters. *)
Fixpoint char_length (s : string) : nat :=
  match s with
  | EmptyString => 0
  | String c s' => (if is_continuation c then 0 else 1) + char_length s'
  end.

(** [s[-n:]] for a positive [n]: the longest end of [s] of at most [n]
    characters that starts a character. *)
Fixpoint last_chars (n : nat) (s : string) : string :=
  match s with
  | EmptyString => EmptyString
  | String c s' =>
      if (char_length s <=? n)%nat && negb (is_continuation c) then s
      else last_chars n s'
  end.

(** [s[-50:]] *)
Definition last50 (s : string) : string := last_chars 50 s.

(** The names of the summary table, column "统计指标". *)
Definition summary_names : list string :=
  ["总请求数"; "慢资源数(>500ms)"; "错误请求数(4xx/5xx)"; "平均请求耗时(ms)";
   "页面完全加载时间(ms)"; "DOM就绪时间(ms)"; "首次内容绘制FCP(ms)";
   "资源类型分布"; "域名分布"; "耗时Top3资源"].

Definition cell_of_nat (n : nat) : cell := CNum (PInt (Z.of_nat n)).

(** [generate_summary(request_df, page_timings)]: the rows of the summary
    table, each a name of "统计指标" with its value of "数值". *)
Definition generate_summary (request_df : DataFrame)
    (page_timings : gmap string cell) : result (list (string * cell)) :=
  let total_requests := df_len request_df in
  do slow_col <- df_getitem request_df "慢资源标记" r_slow;
  let slow_requests := length (List.filter (String.eqb "是") slow_col) in
  do error_col <- df_getitem request_df "是否错误请求" r_error;
  let error_requests := length (List.filter (String.eqb "是") error_col) in
  do avg_total_time <-
    (if (0 <? df_len request_df)%nat
     then do col <- df_getitem request_df "总耗时(ms)" r_total; Ok (mean col)
     else Ok (PInt 0));
  do type_col <- df_getitem request_df "资源类型" r_type;
  let resource_dist_str := dist_str (value_counts type_col) in
  do domain_col <- df_getitem request_df "域名" r_domain;
  let domain_dist_str := dist_str (value_counts domain_col) in
  do largest <- df_nlargest 3 request_df "总耗时(ms)" r_total;
  do top3_slow <- df_getitem largest "资源URL" r_url;
  let top3_slow_str :=
    match top3_slow with
    | [] => "无数据"
    | _ :: _ =>
        String.concat "; "
          (map (fun url => last50 (first_item (split "?" url))) top3_slow)
    end in
  Ok (combine summary_names
        [cell_of_nat total_requests;
         cell_of_nat slow_requests;
         cell_of_nat error_requests;
         CNum (round2 avg_total_time);
         dict_get page_timings "页面完全加载时间(ms)" (CNum (PInt 0));
         dict_get page_timings "DOM就绪时间(ms)" (CNum (PInt 0));
         dict_get page_timings "首次内容绘制FCP(ms)" (CStr "未捕获");
         CStr resource_dist_str;
         CStr domain_dist_str;
         CStr top3_slow_str]).

(** ** 4.5 Bottleneck rule engine *)

(** A piece of an f-string: literal text, or a value formatted in place. *)
Inductive fpart : Type :=
| Lit (s : string)
| Val (c : cell).

(** A row of the findings table. *)
Record Finding : Type := mkFinding {
  b_type : string;        (* "瓶颈类型" *)
  b_desc : list fpart;    (* "描述" *)
  b_advice : string       (* "优化建议" *)
}.

(** [dict(zip(names, values))]: a later row replaces an earlier one of the
    same name. *)
Definition dict_of_rows (rows : list (string * cell)) : gmap string cell :=
  fold_left (fun d kv => <[fst kv := snd kv]> d) rows ∅.

(** [isinstance(c, str)] and [isinstance(c, (int, float))] *)
Definition is_str (c : cell) : bool :=
  match c with CStr _ => true | CNum _ => false end.
Definition is_number (c : cell) : bool :=
  match c with CNum _ => true | CStr _ => false end.

(** [c > n]: a text does not compare with a number. *)
Definition cell_gt (c : cell) (n : pynum) : result bool :=
  match c with
  | CNum x => Ok (num_gtb x n)
  | CStr _ => Raise (TypeError ">")
  end.

(** [c != s] for a text [s] *)
Definition cell_ne_str (c : cell) (s : string) : bool :=
  match c with
  | CStr t => negb (String.eqb t s)
  | CNum _ => true
  end.

Definition slow_finding (slow_count : cell) : Finding :=
  {| b_type := "慢资源过多";
     b_desc := [Lit "共存在"; Val slow_count;
                Lit "个加载耗时超过500ms的资源,影响页面加载速度"];
     b_advice := "1. 压缩图片资源(使用TinyPNG);2. 对JS/CSS进行代码分割和懒加载;3. 启用CDN加速静态资源;4. 优化服务器响应时间" |}.

Definition requests_finding (total_requests : cell) : Finding :=
  {| b_type := "请求数过多";
     b_desc := [Lit "页面总请求数"; Val total_requests;
                Lit "个,超过合理阈值(80个),增加网络开销"];
     b_advice := "1. 合并JS/CSS文件(使用Webpack打包);2. 使用图片雪碧图(Sprite);3. 减少第三方库依赖,按需引入" |}.

Definition error_finding (error_count : cell) : Finding :=
  {| b_type := "错误请求";
     b_desc := [Lit "存在"; Val error_count;
                Lit "个错误请求,可能导致功能异常或资源加载失败"];
     b_advice := "1. 检查资源URL是否正确;2. 排查接口服务状态;3. 修复4xx(资源不存在)/5xx(服务器错误)问题" |}.

Definition latency_finding (avg_time : cell) : Finding :=
  {| b_type := "平均请求耗时过高";
     b_desc := [Lit "平均请求耗时"; Val avg_time; Lit "ms,超过合理阈值(300ms)"];
     b_advice := "1. 优化数据库查询(添加索引);2. 启用服务器缓存(Redis);3. 升级服务器带宽;4. 采用HTTP/2协议" |}.

Definition fcp_finding (fcp : cell) : Finding :=
  {| b_type := "首次内容绘制(FCP)过慢";
     b_desc := [Lit "FCP耗时"; Val fcp;
                Lit "ms,超过优秀阈值(1800ms),影响用户首屏体验"];
     b_advice := "1. 内联首屏关键CSS;2. 预加载核心HTML/JS;3. 减少首屏非必要资源;4. 优化服务器响应速度" |}.

Definition no_bottleneck : Finding :=
  {| b_type := "无明显性能瓶颈";
     b_desc := [Lit "页面性能表现良好,各项指标在合理范围内"];
     b_advice := "1. 持续监控资源加载状态;2. 定期清理冗余资源;3. 跟进HTTP/3等新协议优化" |}.

(** [identify_bottlenecks(request_df, summary)]; [summary] is the rows of
    the summary table. *)
Definition identify_bottlenecks (request_df : DataFrame)
    (summary : list (string * cell)) : result (list Finding) :=
  let bottlenecks : list Finding := [] in
  let summary_dict := dict_of_rows summary in
  (* 1 *)
  let slow_count := dict_get summary_dict "慢资源数(>500ms)" (CNum (PInt 0)) in
  do bottlenecks <-
    (if is_str slow_count then Ok bottlenecks
     else do fires <- cell_gt slow_count (PInt 0);
          Ok (if fires then bottlenecks ++ [slow_finding slow_count]
              else bottlenecks));
  (* 2 *)
  let total_requests := dict_get summary_dict "总请求数" (CNum (PInt 0)) in
  let total_requests :=
    if is_str total_requests then CNum (PInt 0) else total_requests in
  do fires <- cell_gt total_requests (PInt 80);
  let bottlenecks :=
    if fires then bottlenecks ++ [requests_finding total_requests]
    else bottlenecks in
  (* 3 *)
  let error_count := dict_get summary_dict "错误请求数(4xx/5xx)" (CNum (PInt 0)) in
  let error_count := if is_str error_count then CNum (PInt 0) else error_count in
  do fires <- cell_gt error_count (PInt 0);
  let bottlenecks :=
    if fires then bottlenecks ++ [error_finding error_count] else bottlenecks in
  (* 4 *)
  let avg_time := dict_get summary_dict "平均请求耗时(ms)" (CNum (PInt 0)) in
  let avg_time := if is_str avg_time then CNum (PInt 0) else avg_time in
  do fires <- cell_gt avg_time (PInt 300);
  let bottlenecks :=
    if fires then bottlenecks ++ [latency_finding avg_time] else bottlenecks in
  (* 5 *)
  let fcp := dict_get summary_dict "首次内容绘制FCP(ms)" (CStr "未捕获") in
  do fires <-
    (if cell_ne_str fcp "未捕获"
     then if is_number fcp then cell_gt fcp (PInt 1800) else Ok false
     else Ok false);
  let bottlenecks :=
    if fires then bottlenecks ++ [fcp_finding fcp] else bottlenecks in
  Ok (match bottlenecks with
      | [] => bottlenecks ++ [no_bottleneck]
      | _ :: _ => bottlenecks
      end).

(** ** Report export and batch driver *)

Section ReportExport.

(** The local clock, as in [analyze_page_timings]. *)
Variable strftime_local : Q -> result string.

(** The writing of the four sheets to the workbook at a path, lines
    343-355; opening or writing the file may raise. *)
Variable write_excel :
  string -> DataFrame -> gmap string cell -> list (string * cell) ->
  list Finding -> result unit.

(** The path made of the name of the trace and the time of day, lines
    338-340. *)
Variable generated_path : string.

(** [export_to_excel(output_path)], with [self.pages] and [self.entries];
    the [print]s are not modelled.  The result is the path of the report,
    or [None] when anything raised. *)
Definition export_to_excel (pages : list HarPage) (entries : list Entry)
    (output_path : option string) : option string :=
  try_except
    (do request_df <- run_analyze_request_details entries;
     let page_timings := analyze_page_timings strftime_local pages entries in
     do summary_df <- generate_summary request_df page_timings;
     do bottleneck_df <- identify_bottlenecks request_df summary_df;
     let output_path :=
       match output_path with
       | None => generated_path
       | Some "" => generated_path
       | Some path => path
       end in
     do written <- write_excel output_path request_df page_timings
                               summary_df bottleneck_df;
     Ok (Some output_path))
    (fun _ => None).

End ReportExport.

Section Batch.

(** [HARPerformanceAnalyzer(har_file).export_to_excel()]: loading the file
    may raise, the export returns a path or [None]. *)
Variable analyze_file : string -> result (option string).

(** The loop of [batch_analyze_har_files], lines 397-414, with its two
    lists [results] and [failed_files]. *)
Fixpoint batch_loop (har_files : list string)
    (results : list (string * string)) (failed_files : list string)
    : list (string * string) * list string :=
  match har_files with
  | [] => (results, failed_files)
  | har_file :: rest =>
      match analyze_file har_file with
      | Ok (Some result_path) =>
          if negb (String.eqb result_path "")
          then batch_loop rest (results ++ [(har_file, result_path)]) failed_files
          else batch_loop rest results (failed_files ++ [har_file])
      | Ok None => batch_loop rest results (failed_files ++ [har_file])
      | Raise _ => batch_loop rest results (failed_files ++ [har_file])
      end
  end.

(** The report of a file, when its analysis gave one. *)
Definition report_of (har_file : string) : option string :=
  match analyze_file har_file with
  | Ok (Some result_path) =>
      if negb (String.eqb result_path "") then Some result_path else None
  | _ => None
  end.

End Batch.

(** ** Loading a trace *)

(** A value read by [json.load]. *)
#[warnings="-register-all"]
Inductive json : Type :=
| JNull
| JBool (b : bool)
| JNumber (x : pynum)
| JString (s : string)
| JArray (items : list json)
| JObject (fields : gmap string json).

Definition is_json_string (key : string) (v : json) : bool :=
  match v with
  | JString s => String.eqb s key
  | _ => false
  end.

(** [key in v] for a text [key]: a key of an object, an item of an array,
    a part of a text; the other values are not containers. *)
Definition json_contains (key : string) (v : json) : result bool :=
  match v with
  | JObject fields => Ok (bool_decide (is_Some (fields !! key)))
  | JArray items => Ok (existsb (is_json_string key) items)
  | JString s => Ok (contains key s)
  | _ => Raise (TypeError "in")
  end.

(** [v[key]] for a text [key]: only an object is indexed by a text. *)
Definition json_getitem (v : json) (key : string) : result json :=
  match v with
  | JObject fields =>
      match fields !! key with
      | Some x => Ok x
      | None => Raise (KeyError key)
      end
  | _ => Raise (TypeError "[]")
  end.

(** [_load_har_file]; [read_file] stands for the opening and parsing of
    the file, lines 44-45.  Every exception is raised again as a
    [ValueError]; the text of the cause, which the code appends to the
    message, is left out. *)
Definition _load_har_file (read_file : result json) : result json :=
  match
    (do data <- read_file;
     do has_log <- json_contains "log" data;
     do missing <-
       (if negb has_log then Ok true
        else do log <- json_getitem data "log";
             do has_entries <- json_contains "entries" log;
             Ok (negb has_entries));
     if (missing : bool)
     then Raise (ValueError "HAR文件格式不正确，缺少必要的'log'或'entries'字段")
     else Ok data)
  with
  | Ok data => Ok data
  | Raise _ => Raise (ValueError "HAR文件加载失败")
  end.

(** The parser object of the HAR library, as far as [__init__] reads it. *)
Record Parser : Type := mkParser {
  parser_pages : result (list HarPage);   (* parser.pages *)
  parser_har_data : json                  (* parser.har_data *)
}.

(** The fields that [__init__] sets. *)
Record Analyzer : Type := mkAnalyzer {
  an_har_data : json;         (* self.har_data *)
  an_pages : list HarPage;    (* self.pages *)
  an_entries : json           (* self.entries *)
}.

Section Init.

(** [HarParser(har_data)] of the HAR library. *)
Variable HarParser : json -> result Parser.

(** The body of the [try] of [__init__], lines 32-34: the parser is
    built, its pages are read, and the entries are read from its data.
    Each of the three steps may raise. *)
Definition read_through_library (har_data : json)
    : result (list HarPage * json) :=
  do parser <- HarParser har_data;
  do pages <- parser_pages parser;
  do log <- json_getitem (parser_har_data parser) "log";
  do entries <- json_getitem log "entries";
  Ok (pages, entries).

(** [__init__]: the trace is loaded, then read through the library, and
    read directly when any step of that raises. *)
Definition init (read_file : result json) : result Analyzer :=
  do har_data <- _load_har_file read_file;
  match read_through_library har_data with
  | Ok (pages, entries) => Ok (mkAnalyzer har_data pages entries)
  | Raise _ =>
      do log <- json_getitem har_data "log";
      do entries <- json_getitem log "entries";
      Ok (mkAnalyzer har_data [] entries)
  end.

End Init.

(** * Vocabulary of the specification *)

(** ** Request records *)

(** The six phases of a request: the key of the raw timing and the field of
    the record that holds it. *)
Definition phase_columns : list (string * (RequestRecord -> pynum)) :=
  [("dns", r_dns); ("connect", r_tcp); ("ssl", r_ssl);
   ("send", r_send); ("wait", r_wait); ("receive", r_receive)].

(** The specification's reading of a timing field: the raw value when it is
    present and not negative, 0 otherwise. *)
Definition nonnegative_or_zero (raw : option pynum) : pynum :=
  match raw with
  | Some v => if num_geb v (PInt 0) then v else PInt 0
  | None => PInt 0
  end.

(** The reading the code implements for a phase: only -1 is the sentinel. *)
Definition sentinel_to_zero (raw : option pynum) : pynum :=
  match raw with
  | Some v => if num_eqb v (PInt (-1)) then PInt 0 else round2 v
  | None => PInt 0
  end.

(** The text of [s] after the first occurrence of [sep], if there is one. *)
Fixpoint after_first (sep s : string) : option string :=
  if String.prefix sep s
  then Some (String.substring (String.length sep)
                              (String.length s - String.length sep) s)
  else match s with
       | EmptyString => None
       | String _ s' => after_first sep s'
       end.

(** The text of [s] before the first occurrence of [sep], or all of [s]. *)
Fixpoint before_first (sep s : string) : string :=
  if String.prefix sep s then EmptyString
  else match s with
       | EmptyString => EmptyString
       | String c s' => String c (before_first sep s')
       end.

(** The host component as the specification words it: the text between the
    first "//" and the next "/"; "unknown" without a "//". *)
Definition host_after_first_separator (url : string) : string :=
  match after_first "//" url with
  | Some rest => before_first "/" rest
  | None => "unknown"
  end.

(** Sample inputs. *)
Definition entry_of_url (url : string) : Entry :=
  mkEntry (Some (mkRequest (Some url) (Some "GET"))) None None None.

Definition url_with_embedded_url : string :=
  "https://a.example/go?next=http://b.example/x".

Definition entry_negative_dns : Entry :=
  mkEntry None None (Some (<["dns" := PInt (-2)]> ∅)) None.

(** ** Page timings *)

(** A page object whose [timings] attribute cannot be read. *)
Definition page_without_timings : HarPage :=
  mkHarPage (Raise (AttributeError "timings")) (Ok ∅) (Ok "https://example.com/").

(** A page object with navigation timings and a first contentful paint. *)
Definition page_with_timings : HarPage :=
  mkHarPage
    (Ok (<["navigationStart" := VNum (PInt 1000)]>
         (<["domContentLoadedEventEnd" := VNum (PInt 1500)]>
         (<["loadEventEnd" := VNum (PFloat (22005 # 10))]> ∅))))
    (Ok (<["_firstContentfulPaint" := VNum (PInt 900)]> ∅))
    (Ok "https://example.com/").

(** A page object whose navigation start is a text. *)
Definition page_with_text_start : HarPage :=
  mkHarPage (Ok (<["navigationStart" := VStr "soon"]> ∅)) (Ok ∅)
            (Ok "https://example.com/").

(** A clock for the examples. *)
Definition strftime_fixed : Q -> result string :=
  fun _ => Ok "1970-01-01 00:00:01".

(** ** Bottleneck rules *)

(** The five threshold rules of [identify_bottlenecks], in their order. *)
Inductive rule : Type :=
| SlowRule | RequestsRule | ErrorRule | LatencyRule | FcpRule.

Definition all_rules : list rule :=
  [SlowRule; RequestsRule; ErrorRule; LatencyRule; FcpRule].

(** The name of the summary row a rule reads. *)
Definition rule_key (k : rule) : string :=
  match k with
  | SlowRule => "慢资源数(>500ms)"
  | RequestsRule => "总请求数"
  | ErrorRule => "错误请求数(4xx/5xx)"
  | LatencyRule => "平均请求耗时(ms)"
  | FcpRule => "首次内容绘制FCP(ms)"
  end.

(** The value a rule reads when the row is missing. *)
Definition rule_default (k : rule) : cell :=
  match k with
  | FcpRule => CStr "未捕获"
  | _ => CNum (PInt 0)
  end.

Definition rule_threshold (k : rule) : pynum :=
  match k with
  | SlowRule => PInt 0
  | RequestsRule => PInt 80
  | ErrorRule => PInt 0
  | LatencyRule => PInt 300
  | FcpRule => PInt 1800
  end.

Definition rule_finding (k : rule) : cell -> Finding :=
  match k with
  | SlowRule => slow_finding
  | RequestsRule => requests_finding
  | ErrorRule => error_finding
  | LatencyRule => latency_finding
  | FcpRule => fcp_finding
  end.

(** The category label of the finding of a rule. *)
Definition rule_type (k : rule) : string := b_type (rule_finding k (CNum (PInt 0))).

(** The metric of a rule in a summary table. *)
Definition metric (k : rule) (summary : list (string * cell)) : cell :=
  dict_get (dict_of_rows summary) (rule_key k) (rule_default k).

(** A rule fires on a numeric metric above its threshold. *)
Definition fires (k : rule) (summary : list (string * cell)) : bool :=
  match metric k summary with
  | CNum x => num_gtb x (rule_threshold k)
  | CStr _ => false
  end.

(** The findings of the rules that fire, in the order of the rules. *)
Definition fired_findings (summary : list (string * cell)) : list Finding :=
  flat_map (fun k => if fires k summary
                     then [rule_finding k (metric k summary)] else [])
           all_rules.


(** A cell is numeric and above [n]. *)
Definition above (c : cell) (n : pynum) : Prop :=
  exists x, c = CNum x /\ (to_Q n < to_Q x)%Q.


(** Sample summaries. *)
Definition summary_85_requests : list (string * cell) :=
  [("总请求数", CNum (PInt 85));
   ("慢资源数(>500ms)", CNum (PInt 0));
   ("错误请求数(4xx/5xx)", CNum (PInt 0));
   ("平均请求耗时(ms)", CNum (PFloat (200 # 1)));
   ("首次内容绘制FCP(ms)", CStr "未捕获")].


Definition summary_unavailable : list (string * cell) :=
  [("总请求数", CNum (PInt 12));
   ("慢资源数(>500ms)", CStr "不可用");
   ("错误请求数(4xx/5xx)", CNum (PInt 3));
   ("平均请求耗时(ms)", CNum (PInt 20));
   ("首次内容绘制FCP(ms)", CStr "不可用")].


(** A page object with neither a navigation start nor page timings. *)
Definition page_without_start : HarPage :=
  mkHarPage (Ok (<["loadEventEnd" := VStr "late"]> ∅))
            (Raise (AttributeError "pageTimings"))
            (Ok "https://example.com/").

(** The path under which a report is written. *)
Definition chosen_path (generated_path : string) (output_path : option string)
    : string :=
  match output_path with
  | Some path => if String.eqb path "" then generated_path else path
  | None => generated_path
  end.

(** A writer that always succeeds, and an analysis of files by name. *)
Definition write_nothing :
  string -> DataFrame -> gmap string cell -> list (string * cell) ->
  list Finding -> result unit :=
  fun _ _ _ _ _ => Ok tt.

Definition analyze_by_name (har_file : string) : result (option string) :=
  if String.eqb har_file "har/bad.har" then Raise (ValueError "HAR文件加载失败")
  else if String.eqb har_file "har/empty.har" then Ok None
  else Ok (Some (har_file +:+ ".xlsx")).

(** Sample traces and a library that cannot parse. *)
Definition trace_one_entry : json :=
  JObject (<["log" := JObject (<["entries" := JArray [JObject ∅]]> ∅)]> ∅).

Definition trace_text_log : json :=
  JObject (<["log" := JString "no entries here"]> ∅).

Definition parser_fails : json -> result Parser :=
  fun _ => Raise (ValueError "not a HAR").

(** A library whose parser keeps what "log" holds as its data and has no
    page, and one whose parser keeps the trace and cannot give its pages. *)
Definition parser_keeps_log : json -> result Parser :=
  fun har_data =>
    match json_getitem har_data "log" with
    | Ok log => Ok (mkParser (Ok []) log)
    | Raise e => Raise e
    end.

Definition parser_without_pages : json -> result Parser :=
  fun har_data => Ok (mkParser (Raise (KeyError "pages")) har_data).

(** The URLs of the three rows with the greatest total, and the text a URL
    is shown as in the row "耗时Top3资源". *)
Definition top3_urls (rows : list RequestRecord) : list string :=
  map r_url
    (firstn 3 (sort_desc (fun a b => num_gtb (r_total a) (r_total b)) rows)).

Definition shown_url (url : string) : string :=
  last50 (first_item (split "?" url)).

(** ** Numbers of ordinary size *)

(** A float, or an integer of the signed 64-bit range. *)
Definition ordinary_number (x : pynum) : bool :=
  match x with
  | PInt z => (int64_min <=? z)%Z && (z <=? int64_max)%Z
  | PFloat _ => true
  end.

Definition ordinary_field (field : option pynum) : bool :=
  match field with
  | Some x => ordinary_number x
  | None => true
  end.

(** An entry all of whose numbers read by the code are of ordinary size:
    the total time, the status, the two sizes and the six phases. *)
Definition ordinary_entry (entry : Entry) : bool :=
  let response := default empty_response (e_response entry) in
  let timing := default ∅ (e_timings entry) in
  ordinary_field (e_time entry)
  && ordinary_field (resp_status response)
  && ordinary_field (resp_headersSize response)
  && ordinary_field (resp_bodySize response)
  && forallb (fun kp => ordinary_field (timing !! fst kp)) phase_columns.


(** An entry whose total time is an integer beyond 64 bits. *)
Definition entry_huge_time : Entry :=
  mkEntry (Some (mkRequest (Some "https://cdn.example.com/slow") (Some "GET")))
          None None (Some (PInt (2 ^ 64))).

(** * Properties *)

(** ** Worked examples *)

Example classify_js_by_extension :
  _get_resource_type "https://cdn.example.com/app.js" (Some "") = "JS".
Proof. reflexivity. Qed.

Example classify_content_type_first :
  _get_resource_type "https://example.com/style.css" (Some "text/html; charset=utf-8")
  = "HTML".
Proof. reflexivity. Qed.

Example split_does_not_overlap :
  split "//" "a///b//c" = ["a"; "/b"; "c"].
Proof. reflexivity. Qed.

Example entry_slow_ok_flags :
  let r := request_record 1 entry_slow_ok in
  r_slow r = "是" /\ r_error r = "否" /\ r_type r = "JS" /\
  r_domain r = "cdn.example.com" /\ r_dns r = PInt 0 /\
  r_wait r = PFloat (127 # 100) /\ r_size r = PFloat (400 # 100).
Proof. vm_compute. repeat split; reflexivity. Qed.

Example round2_ties_to_even :
  round2 (PFloat (1 # 8)) = PFloat (12 # 100) /\
  round2 (PFloat (3 # 8)) = PFloat (38 # 100) /\
  round2 (PFloat (-1 # 8)) = PFloat (-12 # 100) /\
  round2 (PInt 7) = PInt 7.
Proof. vm_compute. repeat split; reflexivity. Qed.

(** ** The classifier *)

(** C6: for every URL and every content type, [None] and the empty string
    included, [_get_resource_type] returns one of the eight categories
    (and the eight labels are distinct, so exactly one). *)
Theorem get_resource_type_total (url : string) (content_type : option string) :
  In (_get_resource_type url content_type) resource_categories /\
  length resource_categories = 8%nat /\ NoDup resource_categories.
Proof.
  split.
  - unfold _get_resource_type, resource_categories.
    repeat match goal with
           | |- context [if ?b then _ else _] => destruct b
           end; simpl; tauto.
  - split; [reflexivity |].
    apply (bool_decide_unpack _). vm_compute. reflexivity.
Qed.

(** ** The request metrics extractor *)

Lemma analyze_loop_spec (entries : list Entry) :
  forall idx acc,
    analyze_loop idx entries acc
    = acc ++ zip_with request_record (seq idx (length entries)) entries.
Proof.
  induction entries as [|e es IH]; intros idx acc; simpl.
  - by rewrite app_nil_r.
  - rewrite IH, <- app_assoc. reflexivity.
Qed.


Lemma zip_with_record_lookup (entries : list Entry) :
  forall idx i e,
    entries !! i = Some e ->
    zip_with request_record (seq idx (length entries)) entries !! i
    = Some (request_record (idx + i) e).
Proof.
  induction entries as [|e0 es IH]; intros idx i e He; [done|].
  destruct i as [|i]; simpl in *.
  - injection He as ->. by rewrite Nat.add_0_r.
  - rewrite (IH (S idx) i e He). f_equal. f_equal. lia.
Qed.

Lemma request_rows (entries : list Entry) :
  df_rows (analyze_request_details entries)
  = zip_with request_record (seq 1 (length entries)) entries.
Proof.
  unfold analyze_request_details, DataFrame_of. cbn [df_rows].
  by rewrite analyze_loop_spec, app_nil_l.
Qed.

Lemma request_rows_length (entries : list Entry) :
  length (df_rows (analyze_request_details entries)) = length entries.
Proof. rewrite request_rows, length_zip_with, length_seq. lia. Qed.

(** The loop raises exactly when the sizes of some entry overflow, and
    builds the table otherwise. *)
Lemma analyze_loop_checked_spec (entries : list Entry) :
  forall idx request_list,
    analyze_loop_checked idx entries request_list
    = if existsb size_overflows entries then Raise OverflowError
      else Ok (analyze_loop idx entries request_list).
Proof.
  induction entries as [|e es IH]; intros idx request_list; [done|].
  cbn [analyze_loop_checked analyze_loop existsb].
  unfold request_record_checked.
  destruct (size_overflows e); cbn [bind orb]; [done | apply IH].
Qed.

Lemma run_analyze_request_details_spec (entries : list Entry) :
  run_analyze_request_details entries
  = if existsb size_overflows entries then Raise OverflowError
    else Ok (analyze_request_details entries).
Proof.
  unfold run_analyze_request_details. rewrite analyze_loop_checked_spec.
  by destruct (existsb size_overflows entries).
Qed.

Lemma float_limit_large : (2 ^ 64 <= float_limit)%Z.
Proof. apply Z.leb_le. vm_compute. reflexivity. Qed.

Lemma ordinary_number_range (z : Z) :
  ordinary_number (PInt z) = true -> (- 2 ^ 63 <= z < 2 ^ 63)%Z.
Proof.
  unfold ordinary_number, int64_min, int64_max.
  intros [H1 H2]%andb_true_iff. apply Z.leb_le in H1, H2. lia.
Qed.

Lemma ordinary_entry_no_overflow (entry : Entry) :
  ordinary_entry entry = true -> size_overflows entry = false.
Proof.
  unfold ordinary_entry, size_overflows.
  intros [[[[_ _]%andb_true_iff Hh]%andb_true_iff Hb]%andb_true_iff _]%andb_true_iff.
  pose proof float_limit_large as Hlimit.
  destruct (resp_headersSize _) as [[a|qa]|], (resp_bodySize _) as [[b|qb]|];
    cbn [default from_option id ordinary_field] in *;
    try apply ordinary_number_range in Hh;
    try apply ordinary_number_range in Hb;
    try reflexivity;
    try (apply andb_false_iff; right); apply Z.leb_gt; lia.
Qed.

Lemma ordinary_entries_run (entries : list Entry) :
  forallb ordinary_entry entries = true ->
  run_analyze_request_details entries = Ok (analyze_request_details entries).
Proof.
  intros H. rewrite run_analyze_request_details_spec.
  replace (existsb size_overflows entries) with false; [done|].
  symmetry. apply not_true_is_false.
  intros (e & He & Hov)%existsb_exists.
  rewrite forallb_forall in H.
  by rewrite (ordinary_entry_no_overflow e (H e He)) in Hov.
Qed.




Lemma round_half_even_nonneg (q : Q) :
  (0 <= q)%Q -> (0 <= round_half_even q)%Z.
Proof.
  intros Hq. unfold round_half_even.
  assert (Hf : (0 <= Qfloor q)%Z).
  { change 0%Z with (Qfloor 0). by apply Qfloor_resp_le. }
  destruct (Qcompare _ _); [destruct (Z.even _) | |]; lia.
Qed.

Lemma round2_nonneg (x : pynum) :
  (0 <= to_Q x)%Q -> (0 <= to_Q (round2 x))%Q.
Proof.
  destruct x as [z|q]; simpl; [done|].
  intros Hq.
  assert (H : (0 <= round_half_even (q * 100))%Z).
  { apply round_half_even_nonneg. by apply Qmult_le_0_compat. }
  unfold Qle. simpl. lia.
Qed.

Lemma round2_negative (x : pynum) :
  (to_Q (round2 x) < 0)%Q -> (to_Q x < 0)%Q.
Proof.
  intros H. apply Qnot_le_lt. intros Hx.
  apply (Qlt_not_le _ _ H). by apply round2_nonneg.
Qed.

Lemma phase_time_sentinel (timing : gmap string pynum) (k : string) :
  round2 (phase_time timing k) = sentinel_to_zero (timing !! k).
Proof.
  unfold phase_time, dict_get, sentinel_to_zero, num_neb.
  destruct (timing !! k) as [v|]; cbn [default from_option id].
  - destruct (num_eqb v (PInt (-1))); reflexivity.
  - reflexivity.
Qed.

Lemma sentinel_to_zero_negative (raw : option pynum) :
  (to_Q (sentinel_to_zero raw) < 0)%Q ->
  exists v, raw = Some v /\ (to_Q v < 0)%Q /\ ~ (to_Q v == -1)%Q.
Proof.
  unfold sentinel_to_zero. destruct raw as [v|]; [| by intros H; vm_compute in H].
  destruct (num_eqb v (PInt (-1))) eqn:E; [by intros H; vm_compute in H|].
  intros H. exists v. split; [done|]. split; [by apply round2_negative|].
  intros Heq. unfold num_eqb in E. apply Qeq_bool_neq in E. by apply E.
Qed.

(** C2, the claim as written fails: a raw DNS time of -2 is negative and
    is not the sentinel, and the record keeps it. *)
Lemma negative_timing_is_kept :
  let r := request_record 1 entry_negative_dns in
  default ∅ (e_timings entry_negative_dns) !! "dns" = Some (PInt (-2)) /\
  r_dns r = PInt (-2) /\
  r_dns r <> nonnegative_or_zero (Some (PInt (-2))) /\
  (to_Q (r_dns r) < 0)%Q.
Proof. vm_compute. repeat split; congruence. Qed.

(** C2, as the code has it: each of the six phase fields is the raw value
    rounded to two decimals when the value is present and is not -1, and 0
    when it is missing or is -1; the total duration is the raw value rounded
    to two decimals when present, and 0 when missing.  A field is negative
    only where the raw value is negative and, for a phase, is not -1. *)
Theorem timing_fields_sentinel_only (idx : nat) (e : Entry) :
  let r := request_record idx e in
  let timing := default ∅ (e_timings e) in
  Forall (fun kp =>
            snd kp r = sentinel_to_zero (timing !! fst kp) /\
            ((to_Q (snd kp r) < 0)%Q ->
             exists v, timing !! fst kp = Some v /\ (to_Q v < 0)%Q /\
                       ~ (to_Q v == -1)%Q))
         phase_columns /\
  r_total r = match e_time e with Some v => round2 v | None => PInt 0 end /\
  ((to_Q (r_total r) < 0)%Q ->
   exists v, e_time e = Some v /\ (to_Q v < 0)%Q).
Proof.
  intros r timing.
  assert (Hphase : forall k,
             round2 (phase_time timing k) = sentinel_to_zero (timing !! k) /\
             ((to_Q (round2 (phase_time timing k)) < 0)%Q ->
              exists v, timing !! k = Some v /\ (to_Q v < 0)%Q /\
                        ~ (to_Q v == -1)%Q)).
  { intros k. rewrite phase_time_sentinel. split; [done|].
    apply sentinel_to_zero_negative. }
  split; [| split].
  - unfold phase_columns. repeat (apply Forall_cons; split; [apply Hphase|]).
    apply Forall_nil; done.
  - subst r. unfold request_record. cbn [r_total].
    by destruct (e_time e).
  - subst r. unfold request_record. cbn [r_total].
    destruct (e_time e) as [v|]; cbn [default from_option id].
    + intros H. exists v. split; [done|]. by apply round2_negative.
    + intros H. by vm_compute in H.
Qed.

(** C5, where the code departs from the claim: a URL that holds a second
    "//" gets the text after the last one as its domain, not the host. *)
Theorem domain_uses_last_separator :
  let e := entry_of_url url_with_embedded_url in
  r_url (request_record 1 e) = url_with_embedded_url /\
  r_domain (request_record 1 e) = "b.example" /\
  host_after_first_separator url_with_embedded_url = "a.example".
Proof. vm_compute. repeat split; reflexivity. Qed.

Example domain_of_plain_url :
  extract_domain "https://cdn.example.com/app.js" = "cdn.example.com" /\
  host_after_first_separator "https://cdn.example.com/app.js" = "cdn.example.com" /\
  extract_domain "about:blank" = "unknown".
Proof. vm_compute. repeat split; reflexivity. Qed.

(** Without a "//" the domain is "unknown". *)
Lemma extract_domain_without_separator (url : string) :
  contains "//" url = false -> extract_domain url = "unknown".
Proof. intros H. unfold extract_domain. by rewrite H. Qed.

(** ** The page timing extractor *)

Example page_timings_read :
  let d := analyze_page_timings strftime_fixed [page_with_timings] [entry_slow_ok] in
  d !! "页面URL" = Some (CStr "https://example.com/") /\
  d !! "导航开始时间" = Some (CStr "1970-01-01 00:00:01") /\
  d !! "DOM就绪时间(ms)" = Some (CNum (PInt 500)) /\
  d !! "页面完全加载时间(ms)" = Some (CNum (PFloat (120050 # 100))) /\
  d !! "首次内容绘制FCP(ms)" = Some (CNum (PInt 900)) /\
  d !! "首屏加载时间(ms)" = Some (CNum (PInt 1200)).
Proof. vm_compute. repeat split; reflexivity. Qed.

Example page_timings_text_start_raises :
  read_page_timings strftime_fixed page_with_text_start = Raise (TypeError ">").
Proof. reflexivity. Qed.

Lemma degraded_page_timings_url (url : string) :
  degraded_page_timings url !! "页面URL" = Some (CStr url).
Proof. unfold degraded_page_timings. by rewrite lookup_insert_eq. Qed.

Lemma degraded_page_timings_other (url k : string) (v : cell) :
  degraded_page_timings url !! k = Some v ->
  k <> "页面URL" -> v = CStr "不可用".
Proof.
  unfold degraded_page_timings. intros H Hk.
  rewrite lookup_insert_ne in H by done.
  repeat (rewrite lookup_insert in H; case_decide; [by simplify_eq|]).
  by rewrite lookup_empty in H.
Qed.

(** C3: [analyze_page_timings] always returns a snapshot.  Without page
    data, and also when reading the first page raises, the snapshot is the
    reduced one.  With a first entry it has six fields: the URL of that
    entry ("Unknown URL" if the entry has none) and "不可用" in the five
    others.  Without any entry it is the single note
    "未获取到页面时序数据". *)
Theorem analyze_page_timings_degrades
    (strftime_local : Q -> result string)
    (pages : list HarPage) (entries : list Entry) :
  (pages = [] \/
   exists page rest e,
     pages = page :: rest /\ read_page_timings strftime_local page = Raise e) ->
  let d := analyze_page_timings strftime_local pages entries in
  (entries = [] ->
   d !! "提示" = Some (CStr "未获取到页面时序数据") /\
   dom d = {["提示"]}) /\
  (forall first_entry rest, entries = first_entry :: rest ->
     d !! "页面URL"
     = Some (CStr (match e_request first_entry with
                   | Some request =>
                       match req_url request with
                       | Some url => url
                       | None => "Unknown URL"
                       end
                   | None => "Unknown URL"
                   end)) /\
     Forall (fun k => d !! k = Some (CStr "不可用"))
            ["导航开始时间"; "DOM就绪时间(ms)"; "页面完全加载时间(ms)";
             "首次内容绘制FCP(ms)"; "首屏加载时间(ms)"] /\
     dom d = {["页面URL"; "导航开始时间"; "DOM就绪时间(ms)";
               "页面完全加载时间(ms)"; "首次内容绘制FCP(ms)";
               "首屏加载时间(ms)"]}).
Proof.
  intros Hpages d.
  assert (Hd : d = page_timings_fallback entries).
  { subst d. destruct Hpages as [-> | (page & rest & e & -> & Hraise)].
    - reflexivity.
    - unfold analyze_page_timings. by rewrite Hraise. }
  rewrite Hd. split.
  - intros ->. cbn [page_timings_fallback]. unfold no_page_timings. split.
    + apply lookup_insert_eq.
    + by rewrite dom_insert_L, dom_empty_L, union_empty_r_L.
  - intros first_entry rest ->. cbn [page_timings_fallback].
    split; [| split].
    + rewrite degraded_page_timings_url. unfold first_entry_url.
      destruct (e_request first_entry) as [request|]; [| reflexivity].
      cbn [default from_option id]. by destruct (req_url request).
    + unfold degraded_page_timings.
      repeat (apply Forall_cons; split;
              [rewrite !lookup_insert_ne by discriminate; apply lookup_insert_eq |]).
      apply Forall_nil; done.
    + unfold degraded_page_timings.
      rewrite !dom_insert_L, dom_empty_L. set_solver.
Qed.

Lemma analyze_page_timings_degrades_witness :
  let d := analyze_page_timings strftime_fixed [page_without_timings]
                                [entry_slow_ok] in
  ([entry_slow_ok] = [] ->
   d !! "提示" = Some (CStr "未获取到页面时序数据") /\
   dom d = {["提示"]}) /\
  (forall first_entry rest, [entry_slow_ok] = first_entry :: rest ->
     d !! "页面URL"
     = Some (CStr (match e_request first_entry with
                   | Some request =>
                       match req_url request with
                       | Some url => url
                       | None => "Unknown URL"
                       end
                   | None => "Unknown URL"
                   end)) /\
     Forall (fun k => d !! k = Some (CStr "不可用"))
            ["导航开始时间"; "DOM就绪时间(ms)"; "页面完全加载时间(ms)";
             "首次内容绘制FCP(ms)"; "首屏加载时间(ms)"] /\
     dom d = {["页面URL"; "导航开始时间"; "DOM就绪时间(ms)";
               "页面完全加载时间(ms)"; "首次内容绘制FCP(ms)";
               "首屏加载时间(ms)"]}).
Proof.
  apply (analyze_page_timings_degrades strftime_fixed [page_without_timings]
                                       [entry_slow_ok]).
  right. exists page_without_timings, [], (AttributeError "timings").
  split; reflexivity.
Defined.

(** ** The summary aggregator *)

Example summary_of_one_request :
  generate_summary (analyze_request_details [entry_slow_ok])
                   (page_timings_fallback [entry_slow_ok])
  = Ok [("总请求数", CNum (PInt 1));
        ("慢资源数(>500ms)", CNum (PInt 1));
        ("错误请求数(4xx/5xx)", CNum (PInt 0));
        ("平均请求耗时(ms)", CNum (PFloat (60000 # 100)));
        ("页面完全加载时间(ms)", CStr "不可用");
        ("DOM就绪时间(ms)", CStr "不可用");
        ("首次内容绘制FCP(ms)", CStr "不可用");
        ("资源类型分布", CStr "JS: 1个");
        ("域名分布", CStr "cdn.example.com: 1个");
        ("耗时Top3资源", CStr "https://cdn.example.com/app.js")].
Proof. vm_compute. reflexivity. Qed.

(** C1, where the code departs from the claim: the frame built from no
    record has no column, and reading the slow-flag column raises before
    any of the four values is computed. *)
Theorem generate_summary_empty_frame_raises (page_timings : gmap string cell) :
  df_len (analyze_request_details []) = 0%nat /\
  df_columns (analyze_request_details []) = [] /\
  generate_summary (analyze_request_details []) page_timings
  = Raise (KeyError "慢资源标记").
Proof. repeat split; reflexivity. Qed.

(** ** The bottleneck rule engine *)

Example only_the_requests_rule_fires :
  identify_bottlenecks (DataFrame_of []) summary_85_requests
  = Ok [requests_finding (CNum (PInt 85))].
Proof. vm_compute. reflexivity. Qed.

Lemma num_gtb_true (x n : pynum) :
  num_gtb x n = true <-> (to_Q n < to_Q x)%Q.
Proof.
  unfold num_gtb. rewrite negb_true_iff. split.
  - intros H. apply Qnot_le_lt. intros Hle.
    apply Qle_bool_iff in Hle. congruence.
  - intros H. destruct (Qle_bool (to_Q x) (to_Q n)) eqn:E; [|done].
    apply Qle_bool_iff in E. by apply Qlt_not_le in H.
Qed.

Lemma num_gtb_false (x n : pynum) :
  num_gtb x n = false <-> (to_Q x <= to_Q n)%Q.
Proof.
  unfold num_gtb. rewrite negb_false_iff. apply Qle_bool_iff.
Qed.

Lemma dict_of_rows_snoc (rows : list (string * cell)) (k : string) (c : cell) :
  dict_of_rows (rows ++ [(k, c)]) = <[k := c]> (dict_of_rows rows).
Proof. unfold dict_of_rows. by rewrite fold_left_app. Qed.

Lemma rule_key_inj (j k : rule) : rule_key j = rule_key k -> j = k.
Proof. destruct j, k; intros H; try reflexivity; discriminate H. Qed.

(** The rule engine, rule by rule: the findings of the rules that fire, or
    the single no-bottleneck finding when none does. *)
Lemma identify_bottlenecks_fired (df : DataFrame) (summary : list (string * cell)) :
  identify_bottlenecks df summary
  = Ok (match fired_findings summary with
        | [] => [no_bottleneck]
        | f :: fs => f :: fs
        end).
Proof.
  unfold identify_bottlenecks, fired_findings, fires, metric.
  cbn [all_rules flat_map rule_key rule_default rule_threshold rule_finding].
  generalize (dict_get (dict_of_rows summary) "慢资源数(>500ms)" (CNum (PInt 0))).
  generalize (dict_get (dict_of_rows summary) "总请求数" (CNum (PInt 0))).
  generalize (dict_get (dict_of_rows summary) "错误请求数(4xx/5xx)" (CNum (PInt 0))).
  generalize (dict_get (dict_of_rows summary) "平均请求耗时(ms)" (CNum (PInt 0))).
  generalize (dict_get (dict_of_rows summary) "首次内容绘制FCP(ms)" (CStr "未捕获")).
  intros c5 c4 c3 c2 c1.
  assert (H0 : num_gtb (PInt 0) (PInt 80) = false) by reflexivity.
  assert (H1 : num_gtb (PInt 0) (PInt 0) = false) by reflexivity.
  assert (H2 : num_gtb (PInt 0) (PInt 300) = false) by reflexivity.
  destruct c1 as [x1|s1], c2 as [x2|s2], c3 as [x3|s3], c4 as [x4|s4],
           c5 as [x5|s5];
    cbn [is_str is_number cell_gt cell_ne_str bind app];
    rewrite ?H0, ?H1, ?H2;
    repeat match goal with
           | |- context [num_gtb ?x ?n] => destruct (num_gtb x n)
           | |- context [negb ?b] => destruct b; cbn [negb]
           end;
    reflexivity.
Qed.

Lemma b_type_rule_finding (k : rule) (c : cell) :
  b_type (rule_finding k c) = rule_type k.
Proof. by destruct k. Qed.

Lemma rule_type_inj (j k : rule) : rule_type j = rule_type k -> j = k.
Proof. destruct j, k; intros H; try reflexivity; discriminate H. Qed.

Lemma rule_type_no_bottleneck (k : rule) : rule_type k <> b_type no_bottleneck.
Proof. destruct k; discriminate. Qed.

Lemma elem_of_fired_findings (f : Finding) (summary : list (string * cell)) :
  f ∈ fired_findings summary <->
  exists k, fires k summary = true /\ f = rule_finding k (metric k summary).
Proof.
  unfold fired_findings. rewrite list_elem_of_In, in_flat_map. split.
  - intros (k & _ & Hf). exists k.
    destruct (fires k summary); [| by destruct Hf].
    destruct Hf as [<- | []]. done.
  - intros (k & Hk & ->). exists k. rewrite Hk. split; [| by left].
    destruct k; simpl; tauto.
Qed.

Lemma fired_finding_type (f : Finding) (summary : list (string * cell)) :
  f ∈ fired_findings summary ->
  exists k, fires k summary = true /\ b_type f = rule_type k.
Proof.
  intros (k & Hk & ->)%elem_of_fired_findings.
  exists k. by rewrite b_type_rule_finding.
Qed.

Lemma flat_map_agree {A B : Type} (f g : A -> list B) (l : list A) :
  (forall a, In a l -> f a = g a) -> flat_map f l = flat_map g l.
Proof.
  induction l as [|a l IH]; intros H; simpl; [done|].
  rewrite (H a) by (by left). rewrite IH; [done|].
  intros b Hb. apply H. by right.
Qed.

Lemma all_rules_split (k : rule) :
  exists pre post,
    all_rules = pre ++ k :: post /\ ~ In k pre /\ ~ In k post.
Proof.
  destruct k;
    [ exists [], [RequestsRule; ErrorRule; LatencyRule; FcpRule]
    | exists [SlowRule], [ErrorRule; LatencyRule; FcpRule]
    | exists [SlowRule; RequestsRule], [LatencyRule; FcpRule]
    | exists [SlowRule; RequestsRule; ErrorRule], [FcpRule]
    | exists [SlowRule; RequestsRule; ErrorRule; LatencyRule], [] ];
    (split; [reflexivity | split; simpl; intuition discriminate]).
Qed.

(** Replacing the metric of rule [k] leaves the other rules as they were. *)
Lemma metric_other (summary summary' : list (string * cell)) (k j : rule) (c : cell) :
  dict_of_rows summary' = <[rule_key k := c]> (dict_of_rows summary) ->
  j <> k -> metric j summary' = metric j summary.
Proof.
  intros Hd Hj. unfold metric, dict_get. rewrite Hd, lookup_insert_ne; [done|].
  intros E. apply rule_key_inj in E. congruence.
Qed.

Lemma metric_replaced (summary summary' : list (string * cell)) (k : rule) (c : cell) :
  dict_of_rows summary' = <[rule_key k := c]> (dict_of_rows summary) ->
  metric k summary' = c.
Proof.
  intros Hd. unfold metric, dict_get. by rewrite Hd, lookup_insert_eq.
Qed.

Lemma fires_other (summary summary' : list (string * cell)) (k j : rule) (c : cell) :
  dict_of_rows summary' = <[rule_key k := c]> (dict_of_rows summary) ->
  j <> k -> fires j summary' = fires j summary.
Proof.
  intros Hd Hj. unfold fires. by rewrite (metric_other _ _ _ _ _ Hd Hj).
Qed.

(** The findings of the rules before and after rule [k], which a change of
    the metric of [k] does not touch. *)
Lemma fired_findings_around (summary summary' : list (string * cell))
    (k : rule) (c : cell) :
  dict_of_rows summary' = <[rule_key k := c]> (dict_of_rows summary) ->
  exists before after,
    fired_findings summary
    = before ++ (if fires k summary
                 then [rule_finding k (metric k summary)] else []) ++ after /\
    fired_findings summary'
    = before ++ (if fires k summary' then [rule_finding k c] else []) ++ after /\
    (forall f, f ∈ before ++ after -> b_type f <> rule_type k).
Proof.
  intros Hd.
  destruct (all_rules_split k) as (pre & post & Hsplit & Hpre & Hpost).
  set (slot := fun s j => if fires j s then [rule_finding j (metric j s)] else []).
  assert (Hsame : forall l, ~ In k l ->
                            flat_map (slot summary') l = flat_map (slot summary) l).
  { intros l Hl. apply flat_map_agree. intros j Hj. unfold slot.
    assert (j <> k) by (intros ->; done).
    by rewrite (fires_other _ _ _ _ _ Hd), (metric_other _ _ _ _ _ Hd). }
  exists (flat_map (slot summary) pre), (flat_map (slot summary) post).
  unfold fired_findings. fold (slot summary) (slot summary').
  rewrite Hsplit, !flat_map_app. cbn [flat_map].
  rewrite !Hsame by done.
  assert (Hk : slot summary' k
               = if fires k summary' then [rule_finding k c] else []).
  { unfold slot. by rewrite (metric_replaced _ _ _ _ Hd). }
  rewrite Hk.
  split; [reflexivity | split; [reflexivity|]].
  intros f Hf Hty.
  assert (Hin : exists j, In j (pre ++ post) /\ f ∈ slot summary j).
  { apply elem_of_app in Hf as [Hf|Hf];
      apply list_elem_of_In, in_flat_map in Hf as (j & Hj & Hf);
      exists j; (split; [apply in_or_app; tauto | by apply list_elem_of_In]). }
  destruct Hin as (j & Hj & Hfj). unfold slot in Hfj.
  destruct (fires j summary); [| by apply elem_of_nil in Hfj].
  apply list_elem_of_singleton in Hfj as ->.
  rewrite b_type_rule_finding in Hty. apply rule_type_inj in Hty as ->.
  apply in_app_or in Hj. tauto.
Qed.

Lemma elem_of_reported (f : Finding) (fired : list Finding) :
  f ∈ match fired with [] => [no_bottleneck] | g :: gs => g :: gs end <->
  f ∈ fired \/ (fired = [] /\ f = no_bottleneck).
Proof.
  destruct fired as [|g gs].
  - rewrite list_elem_of_singleton, elem_of_nil. tauto.
  - split; [tauto | intros [H | [H _]]; [done | discriminate H]].
Qed.

Lemma fires_metric_above (k : rule) (summary : list (string * cell)) :
  fires k summary = true <-> above (metric k summary) (rule_threshold k).
Proof.
  unfold fires, above. destruct (metric k summary) as [x|s].
  - rewrite num_gtb_true. split.
    + intros H. by exists x.
    + by intros (y & [= <-] & H).
  - split; [done | by intros (y & [=] & _)].
Qed.


(** A finding of the category of rule [k] is reported exactly when the rule
    fires. *)
Lemma reported_type_fires (k : rule) (summary : list (string * cell)) :
  (exists f, f ∈ match fired_findings summary with
                 | [] => [no_bottleneck]
                 | g :: gs => g :: gs
                 end /\ b_type f = rule_type k) <->
  fires k summary = true.
Proof.
  split.
  - intros (f & Hf & Hty). apply elem_of_reported in Hf as [Hf | [_ ->]].
    + apply fired_finding_type in Hf as (j & Hj & Hty').
      rewrite Hty' in Hty. by apply rule_type_inj in Hty as ->.
    + symmetry in Hty. by apply rule_type_no_bottleneck in Hty.
  - intros Hk. exists (rule_finding k (metric k summary)).
    split; [| apply b_type_rule_finding].
    apply elem_of_reported. left. apply elem_of_fired_findings. by exists k.
Qed.

(** C7: when the metric of one rule goes from a number at or below its
    threshold to a number above it and no other row of the summary changes,
    the findings are those of before (the no-bottleneck finding apart,
    which was there only if no rule fired) with the finding of that rule
    added at its place, and nothing else. *)
Theorem raising_one_metric_adds_its_finding
    (df : DataFrame) (summary summary' : list (string * cell))
    (k : rule) (v v' : pynum) :
  metric k summary = CNum v ->
  (to_Q v <= to_Q (rule_threshold k))%Q ->
  (to_Q (rule_threshold k) < to_Q v')%Q ->
  dict_of_rows summary' = <[rule_key k := CNum v']> (dict_of_rows summary) ->
  exists fs before after,
    identify_bottlenecks df summary = Ok fs /\
    identify_bottlenecks df summary'
    = Ok (before ++ rule_finding k (CNum v') :: after) /\
    ((before ++ after <> [] /\ fs = before ++ after) \/
     (before ++ after = [] /\ fs = [no_bottleneck])) /\
    (forall f, f ∈ before ++ after -> b_type f <> rule_type k).
Proof.
  intros Hm Hle Hgt Hd.
  destruct (fired_findings_around _ _ _ _ Hd)
    as (before & after & Hs & Hs' & Hty).
  assert (Hk : fires k summary = false).
  { unfold fires. rewrite Hm. by apply num_gtb_false. }
  assert (Hk' : fires k summary' = true).
  { unfold fires. rewrite (metric_replaced _ _ _ _ Hd). by apply num_gtb_true. }
  rewrite Hk in Hs. rewrite Hk' in Hs'. cbn [app] in Hs, Hs'.
  exists (match before ++ after with
          | [] => [no_bottleneck]
          | g :: gs => g :: gs
          end), before, after.
  rewrite !identify_bottlenecks_fired, Hs, Hs'.
  split; [done|]. split; [by destruct before|]. split; [| done].
  destruct (before ++ after); [right | left]; done.
Qed.

Lemma raising_one_metric_adds_its_finding_witness :
  exists fs before after,
    identify_bottlenecks (DataFrame_of []) summary_85_requests = Ok fs /\
    identify_bottlenecks (DataFrame_of [])
      (summary_85_requests ++ [("慢资源数(>500ms)", CNum (PInt 2))])
    = Ok (before ++ rule_finding SlowRule (CNum (PInt 2)) :: after) /\
    ((before ++ after <> [] /\ fs = before ++ after) \/
     (before ++ after = [] /\ fs = [no_bottleneck])) /\
    (forall f, f ∈ before ++ after -> b_type f <> rule_type SlowRule).
Proof.
  apply (raising_one_metric_adds_its_finding (DataFrame_of [])
           summary_85_requests
           (summary_85_requests ++ [("慢资源数(>500ms)", CNum (PInt 2))])
           SlowRule (PInt 0) (PInt 2)).
  - reflexivity.
  - vm_compute. discriminate.
  - vm_compute. reflexivity.
  - apply dict_of_rows_snoc.
Defined.




(** C10: a text in the row of one of the rules 1 to 4 counts as 0: the
    findings are those of the summary with that row set to 0, the rule does
    not fire, and the result is a non-empty list of findings. *)
Theorem text_metric_counts_as_zero
    (df : DataFrame) (summary : list (string * cell))
    (k : rule) (text : string) :
  k <> FcpRule ->
  metric k summary = CStr text ->
  exists fs,
    identify_bottlenecks df summary = Ok fs /\
    identify_bottlenecks df (summary ++ [(rule_key k, CNum (PInt 0))]) = Ok fs /\
    fs <> [] /\
    (forall f, f ∈ fs -> b_type f <> rule_type k).
Proof.
  intros Hk Hm.
  pose proof (dict_of_rows_snoc summary (rule_key k) (CNum (PInt 0))) as Hd.
  destruct (fired_findings_around _ _ _ _ Hd)
    as (before & after & Hs & Hs' & Hty).
  assert (Hf : fires k summary = false).
  { unfold fires. by rewrite Hm. }
  assert (Hf' : fires k (summary ++ [(rule_key k, CNum (PInt 0))]) = false).
  { unfold fires. rewrite (metric_replaced _ _ _ _ Hd). by destruct k. }
  rewrite Hf in Hs. rewrite Hf' in Hs'. cbn [app] in Hs, Hs'.
  eexists. split; [apply identify_bottlenecks_fired|].
  rewrite identify_bottlenecks_fired, Hs, Hs'.
  split; [done|]. split; [by destruct (before ++ after)|].
  intros f [Hin | [_ ->]]%elem_of_reported.
  - by apply Hty.
  - intros H. symmetry in H. by apply rule_type_no_bottleneck in H.
Qed.

Lemma text_metric_counts_as_zero_witness :
  exists fs,
    identify_bottlenecks (DataFrame_of []) summary_unavailable = Ok fs /\
    identify_bottlenecks (DataFrame_of [])
      (summary_unavailable ++ [("慢资源数(>500ms)", CNum (PInt 0))]) = Ok fs /\
    fs <> [] /\
    (forall f, f ∈ fs -> b_type f <> rule_type SlowRule).
Proof.
  apply (text_metric_counts_as_zero (DataFrame_of []) summary_unavailable
           SlowRule "不可用").
  - discriminate.
  - reflexivity.
Defined.

(** * Further properties of the code *)

(** ** Strings: [split], [in] and the first and last pieces *)

Lemma prefix_empty (s : string) : String.prefix "" s = true.
Proof. by destruct s. Qed.

Lemma split_aux_nonempty (sep : string) (s : string) :
  forall skip cur, split_aux sep skip cur s <> [].
Proof.
  induction s as [|c s IH]; intros skip cur; cbn [split_aux]; [done|].
  destruct skip; [| apply IH].
  destruct (String.prefix sep (String c s)); [done | apply IH].
Qed.

(** The first piece of a split is the text before the first separator. *)
Lemma first_item_split_aux (sep : string) (s : string) :
  forall cur,
    first_item (split_aux sep 0 cur s)
    = string_of_list_ascii (rev cur ++ list_ascii_of_string (before_first sep s)).
Proof.
  induction s as [|c s IH]; intros cur.
  - cbn [split_aux before_first first_item hd].
    destruct (String.prefix sep ""); cbn [list_ascii_of_string];
      by rewrite app_nil_r.
  - cbn [split_aux before_first].
    destruct (String.prefix sep (String c s)).
    + cbn [first_item hd list_ascii_of_string]. by rewrite app_nil_r.
    + rewrite IH. cbn [rev list_ascii_of_string]. by rewrite <- app_assoc.
Qed.

Lemma first_item_split (sep s : string) :
  first_item (split sep s) = before_first sep s.
Proof.
  unfold split. rewrite first_item_split_aux. cbn [rev app].
  apply string_of_list_ascii_of_string.
Qed.

(** A text without the separator is the single piece of its split. *)
Lemma split_aux_without_separator (sep : string) (s : string) :
  forall cur,
    contains sep s = false ->
    split_aux sep 0 cur s
    = [string_of_list_ascii (rev cur ++ list_ascii_of_string s)].
Proof.
  induction s as [|c s IH]; intros cur H.
  - cbn [split_aux list_ascii_of_string]. by rewrite app_nil_r.
  - cbn [contains] in H. apply orb_false_iff in H as [Hp Hc].
    cbn [split_aux]. rewrite Hp, (IH _ Hc).
    cbn [rev list_ascii_of_string]. by rewrite <- app_assoc.
Qed.

Lemma split_without_separator (sep s : string) :
  contains sep s = false -> split sep s = [s].
Proof.
  intros H. unfold split. rewrite (split_aux_without_separator _ _ _ H).
  cbn [rev app]. by rewrite string_of_list_ascii_of_string.
Qed.

(** Passing over [k] characters is dropping them. *)
Lemma split_aux_skip (sep : string) (k : nat) :
  forall s,
    split_aux sep k [] s
    = split_aux sep 0 [] (String.substring k (String.length s - k) s).
Proof.
  induction k as [|k IH]; intros s.
  - rewrite Nat.sub_0_r.
    replace (String.substring 0 (String.length s) s) with s; [done|].
    induction s as [|c s IHs]; [done|]. cbn [String.length String.substring].
    by rewrite <- IHs.
  - destruct s as [|c s]; [reflexivity|].
    cbn [split_aux String.length String.substring]. rewrite IH.
    by rewrite Nat.sub_succ.
Qed.

Lemma last_cons_nonempty {A : Type} (x d : A) (l : list A) :
  l <> [] -> List.last (x :: l) d = List.last l d.
Proof. by destruct l. Qed.

(** The last piece of a split is the last piece of what follows the first
    separator. *)
Lemma last_item_split_aux (a : ascii) (sep' : string) (s : string) :
  forall cur rest,
    after_first (String a sep') s = Some rest ->
    last_item (split_aux (String a sep') 0 cur s)
    = last_item (split (String a sep') rest).
Proof.
  induction s as [|c s IH]; intros cur rest H; [done|].
  cbn [after_first] in H. cbn [split_aux].
  destruct (String.prefix (String a sep') (String c s)).
  - injection H as <-. unfold last_item.
    rewrite last_cons_nonempty by apply split_aux_nonempty.
    cbn [String.length String.substring].
    replace (S (String.length sep') - 1)%nat with (String.length sep') by lia.
    unfold split. by rewrite split_aux_skip.
  - by apply IH.
Qed.

Lemma after_first_contains (sep s : string) :
  is_Some (after_first sep s) <-> contains sep s = true.
Proof.
  induction s as [|c s IH]; cbn [after_first contains].
  - destruct (String.prefix sep ""); cbn [orb]; split; try done;
      by intros [? [=]].
  - destruct (String.prefix sep (String c s)); cbn [orb]; [by split | done].
Qed.

Lemma contains_slash_before_first (s : string) :
  contains "/" (before_first "/" s) = false.
Proof.
  induction s as [|c s IH]; [done|].
  cbn [before_first].
  destruct (String.prefix "/" (String c s)) eqn:E; [done|].
  cbn [contains]. rewrite IH, orb_false_r.
  cbn [String.prefix] in *. destruct (ascii_dec "/" c); [| done].
  by rewrite prefix_empty in E.
Qed.

(** ** Request records: domain, size and flags *)

(** The domain of a record never holds a "/". *)
Theorem domain_has_no_slash (idx : nat) (e : Entry) :
  contains "/" (r_domain (request_record idx e)) = false.
Proof.
  unfold request_record. cbn [r_domain]. unfold extract_domain.
  destruct (contains "//" _); cbn [try_except]; [| reflexivity].
  rewrite first_item_split. apply contains_slash_before_first.
Qed.

(** On a URL with at most one "//" the domain is the host: the text
    between the "//" and the next "/", or "unknown" without a "//". *)
Theorem domain_is_host_with_one_separator (url : string) :
  (forall rest, after_first "//" url = Some rest -> contains "//" rest = false) ->
  extract_domain url = host_after_first_separator url.
Proof.
  intros Hone. unfold extract_domain, host_after_first_separator.
  destruct (after_first "//" url) as [rest|] eqn:E.
  - assert (Hc : contains "//" url = true).
    { apply after_first_contains. by rewrite E. }
    rewrite Hc. cbn [try_except].
    unfold split at 2. rewrite (last_item_split_aux _ _ _ _ _ E).
    rewrite (split_without_separator _ _ (Hone rest eq_refl)).
    cbn [last_item List.last]. apply first_item_split.
  - destruct (contains "//" url) eqn:Hc; [| reflexivity].
    apply after_first_contains in Hc. rewrite E in Hc. by destruct Hc.
Qed.

Lemma domain_is_host_with_one_separator_witness :
  extract_domain "https://cdn.example.com/app.js"
  = host_after_first_separator "https://cdn.example.com/app.js".
Proof.
  apply (domain_is_host_with_one_separator "https://cdn.example.com/app.js").
  intros rest H. vm_compute in H. injection H as <-. reflexivity.
Defined.

Lemma round_half_even_ge (n : Z) (x : Q) :
  (inject_Z n <= x)%Q -> (n <= round_half_even x)%Z.
Proof.
  intros H. unfold round_half_even.
  assert (Hf : (n <= Qfloor x)%Z).
  { rewrite <- (Qfloor_Z n). by apply Qfloor_resp_le. }
  destruct (Qcompare _ _); [destruct (Z.even _) | |]; lia.
Qed.

Lemma round_half_even_le (n : Z) (x : Q) :
  (x <= inject_Z n)%Q -> (round_half_even x <= n)%Z.
Proof.
  intros H. unfold round_half_even.
  assert (Hf : (Qfloor x <= n)%Z).
  { rewrite <- (Qfloor_Z n). by apply Qfloor_resp_le. }
  destruct (Z.eq_dec (Qfloor x) n) as [Heq | Hne].
  - assert (Hlt : (x - inject_Z (Qfloor x) < 1 # 2)%Q).
    { rewrite Heq. lra. }
    destruct (Qcompare (x - inject_Z (Qfloor x)) (1 # 2)) eqn:Ec; [| lia |].
    + apply Qeq_alt in Ec. lra.
    + apply Qgt_alt in Ec. lra.
  - destruct (Qcompare _ _); [destruct (Z.even _) | |]; lia.
Qed.

(** Rounding to two decimals does not cross a whole number. *)
Lemma round2_ge_int (z : Z) (x : pynum) :
  (inject_Z z <= to_Q x)%Q -> (inject_Z z <= to_Q (round2 x))%Q.
Proof.
  destruct x as [n|q]; cbn [round2 to_Q]; [done|]. intros H.
  assert (Hr : (z * 100 <= round_half_even (q * 100))%Z).
  { apply round_half_even_ge. rewrite inject_Z_mult.
    apply Qmult_le_compat_r; [done | by vm_compute]. }
  unfold Qle. cbn [Qnum Qden inject_Z]. lia.
Qed.

Lemma round2_le_int (z : Z) (x : pynum) :
  (to_Q x <= inject_Z z)%Q -> (to_Q (round2 x) <= inject_Z z)%Q.
Proof.
  destruct x as [n|q]; cbn [round2 to_Q]; [done|]. intros H.
  assert (Hr : (round_half_even (q * 100) <= z * 100)%Z).
  { apply round_half_even_le. rewrite inject_Z_mult.
    apply Qmult_le_compat_r; [done | by vm_compute]. }
  unfold Qle. cbn [Qnum Qden inject_Z]. lia.
Qed.

(** The transferred size of a record is never negative, and it is 0 when
    the header and body sizes do not add up to a positive number. *)
Theorem size_is_never_negative (idx : nat) (e : Entry) :
  let r := request_record idx e in
  let response := default empty_response (e_response e) in
  let bytes := num_add (default (PInt 0) (resp_headersSize response))
                       (default (PInt 0) (resp_bodySize response)) in
  (0 <= to_Q (r_size r))%Q /\
  ((to_Q bytes <= 0)%Q -> r_size r = PInt 0).
Proof.
  intros r response bytes. subst r. unfold request_record. cbn [r_size].
  fold response. fold bytes.
  destruct (num_gtb bytes (PInt 0)) eqn:E.
  - apply num_gtb_true in E. cbn [to_Q] in E. unfold inject_Z in E.
    clearbody bytes. split.
    + apply round2_nonneg. unfold num_div_const. cbn [to_Q].
      apply Qlt_le_weak, Qlt_shift_div_l; [by vm_compute |].
      unfold inject_Z. lra.
    + intros H. lra.
  - split; [by vm_compute | done].
Qed.

(** The flags of a record agree with the columns shown next to them: a
    request flagged slow shows a total of at least 500, a request showing a
    total above 500 is flagged slow, and a request is flagged as an error
    exactly when the status shown is at least 400. *)
Theorem flags_agree_with_columns (idx : nat) (e : Entry) :
  let r := request_record idx e in
  (r_slow r = "是" \/ r_slow r = "否") /\
  (r_slow r = "是" -> (500 <= to_Q (r_total r))%Q) /\
  ((500 < to_Q (r_total r))%Q -> r_slow r = "是") /\
  (r_error r = "是" \/ r_error r = "否") /\
  (r_error r = "是" <-> (400 <= to_Q (r_status r))%Q).
Proof.
  intros r. subst r. unfold request_record.
  cbn [r_slow r_total r_error r_status].
  set (total_time := default (PInt 0) (e_time e)).
  set (status := default (PInt 0) (resp_status (default empty_response (e_response e)))).
  split; [destruct (num_gtb _ _); tauto|].
  split; [| split; [| split; [destruct (num_geb _ _); tauto|]]].
  - destruct (num_gtb total_time (PInt 500)) eqn:E; [| discriminate].
    intros _. apply num_gtb_true in E.
    apply (round2_ge_int 500). cbn [to_Q] in E. by apply Qlt_le_weak.
  - intros H. destruct (num_gtb total_time (PInt 500)) eqn:E; [done|].
    apply num_gtb_false in E. cbn [to_Q] in E.
    apply (round2_le_int 500) in E. unfold inject_Z in E.
    clearbody total_time. lra.
  - unfold num_geb. cbn [to_Q].
    destruct (Qle_bool (inject_Z 400) (to_Q status)) eqn:E.
    + apply Qle_bool_iff in E. by split.
    + split; [discriminate|]. intros H. apply Qle_bool_iff in H.
      unfold inject_Z in E. congruence.
Qed.

(** ** The classifier: content type first, letter case of the URL *)

(** "HTML" is decided by the content type alone: there is no fallback on
    the extension for it. *)
Theorem html_only_by_content_type (url : string) (content_type : option string) :
  _get_resource_type url content_type = "HTML" <->
  contains "text/html" (default "" content_type) = true.
Proof.
  unfold _get_resource_type.
  replace (match content_type with
           | Some "" => "" | Some (String a s0 as ct) => ct | None => ""
           end) with (default "" content_type)
    by (by destruct content_type as [[|]|]).
  destruct (contains "text/html" (default "" content_type)); [done|].
  repeat match goal with
         | |- context [if ?b then _ else _] => destruct b
         end; split; discriminate.
Qed.

Lemma lower_ascii_idem (c : ascii) : lower_ascii (lower_ascii c) = lower_ascii c.
Proof.
  destruct c as [[] [] [] [] [] [] [] []]; reflexivity.
Qed.

Lemma lower_idem (s : string) : lower (lower s) = lower s.
Proof.
  induction s as [|c s IH]; [done|].
  cbn [lower]. by rewrite lower_ascii_idem, IH.
Qed.

Lemma length_lower (s : string) : String.length (lower s) = String.length s.
Proof. induction s as [|c s IH]; [done|]. cbn [lower String.length]. by rewrite IH. Qed.

Lemma substring_lower (s : string) :
  forall n m, String.substring n m (lower s) = lower (String.substring n m s).
Proof.
  induction s as [|c s IH]; intros n m.
  - by destruct n, m.
  - destruct n as [|n]; [destruct m as [|m] |]; cbn [lower String.substring];
      [done | by rewrite IH | apply IH].
Qed.

(** A suffix in lower case that ends [url] also ends [url.lower()]. *)
Lemma endswith_lower (url suf : string) :
  lower suf = suf -> endswith url suf = true -> endswith (lower url) suf = true.
Proof.
  unfold endswith. intros Hsuf H. rewrite length_lower.
  apply andb_true_iff in H as [Hlen Heq]. apply andb_true_iff. split; [done|].
  apply String.eqb_eq in Heq. apply String.eqb_eq.
  by rewrite substring_lower, Heq.
Qed.

(** The letter case of the URL does not matter to the classifier, except
    for the suffix ".json", which is compared as it is written. *)
Theorem classification_ignores_url_case (url : string) (content_type : option string) :
  endswith (lower url) ".json" = false ->
  _get_resource_type (lower url) content_type
  = _get_resource_type url content_type.
Proof.
  intros H.
  assert (H' : endswith url ".json" = false).
  { destruct (endswith url ".json") eqn:E; [| done].
    apply (endswith_lower _ _ eq_refl) in E. congruence. }
  unfold _get_resource_type. by rewrite lower_idem, H, H'.
Qed.

Lemma classification_ignores_url_case_witness :
  _get_resource_type (lower "https://cdn.example.com/LOGO.PNG") None
  = _get_resource_type "https://cdn.example.com/LOGO.PNG" None.
Proof.
  apply (classification_ignores_url_case "https://cdn.example.com/LOGO.PNG" None).
  reflexivity.
Defined.

Example json_suffix_is_case_sensitive :
  _get_resource_type "https://api.example.com/DATA.JSON" None = "其他" /\
  _get_resource_type "https://api.example.com/data.json" None = "JSON接口".
Proof. split; reflexivity. Qed.

(** ** Page timings: shape and values of the snapshot *)

Lemma offset_cell_nonneg (v : pyval) (ok : bool) (c : cell) :
  py_ge v (PInt 0) = Ok ok ->
  (if ok then do x <- py_round2 v; Ok (CNum x) else Ok (CNum (PInt 0))) = Ok c ->
  exists x, c = CNum x /\ (0 <= to_Q x)%Q.
Proof.
  destruct v as [|x|s]; cbn [py_ge]; intros Hok Hc; try discriminate.
  injection Hok as <-. destruct (num_geb x (PInt 0)) eqn:E.
  - cbn [py_round2 bind] in Hc. injection Hc as <-.
    exists (round2 x). split; [done|]. apply round2_nonneg.
    unfold num_geb in E. by apply Qle_bool_iff in E.
  - injection Hc as <-. exists (PInt 0). split; [done | by vm_compute].
Qed.

Lemma truthy_and_positive_true (v : pyval) :
  truthy_and_positive v = Ok true ->
  exists raw, v = VNum raw /\ (0 < to_Q raw)%Q.
Proof.
  unfold truthy_and_positive. destruct (truthy v); [| discriminate].
  destruct v as [|x|s]; cbn [py_gt]; intros H; try discriminate.
  injection H as H. exists x. split; [done|]. by apply num_gtb_true in H.
Qed.

Lemma paint_cells (v : pyval) (b1 b2 : bool) (fcp_cell screen_cell : cell) :
  truthy_and_positive v = Ok b1 ->
  (if b1 then do x <- py_round2 v; Ok (CNum x) else Ok (CStr "未捕获"))
  = Ok fcp_cell ->
  truthy_and_positive v = Ok b2 ->
  (if b2 then do y <- py_add_const v (PInt 300); Ok (CNum (round2 y))
   else Ok (CStr "未捕获")) = Ok screen_cell ->
  (b1 = false /\ fcp_cell = CStr "未捕获" /\ screen_cell = CStr "未捕获") \/
  (exists raw, v = VNum raw /\ (0 < to_Q raw)%Q /\
               fcp_cell = CNum (round2 raw) /\
               screen_cell = CNum (round2 (num_add raw (PInt 300)))).
Proof.
  intros H1 Hf H2 Hs. rewrite H1 in H2. injection H2 as <-.
  destruct b1.
  - right. destruct (truthy_and_positive_true _ H1) as (raw & -> & Hraw).
    cbn [py_round2 py_add_const bind] in Hf, Hs.
    injection Hf as <-. injection Hs as <-. by exists raw.
  - left. injection Hf as <-. injection Hs as <-. done.
Qed.

(** What a successful reading of a page returns. *)
Lemma read_page_timings_ok (strftime_local : Q -> result string)
    (page : HarPage) (d : gmap string cell) :
  read_page_timings strftime_local page = Ok d ->
  exists timings url nav_text dom_cell load_cell fcp_cell screen_cell,
    page_timings page = Ok timings /\
    page_url page = Ok url /\
    d = <["页面URL" := CStr url]>
        (<["导航开始时间" := CStr nav_text]>
        (<["DOM就绪时间(ms)" := dom_cell]>
        (<["页面完全加载时间(ms)" := load_cell]>
        (<["首次内容绘制FCP(ms)" := fcp_cell]>
        (<["首屏加载时间(ms)" := screen_cell]> ∅))))) /\
    (exists started,
        py_gt (dict_get timings "navigationStart" (VNum (PInt 0))) (PInt 0)
        = Ok started /\
        (started = false ->
         nav_text = "无" /\ dom_cell = CNum (PInt 0) /\ load_cell = CNum (PInt 0))) /\
    (exists x, dom_cell = CNum x /\ (0 <= to_Q x)%Q) /\
    (exists x, load_cell = CNum x /\ (0 <= to_Q x)%Q) /\
    let first_contentful_paint :=
      try_except
        (do pt <- page_pageTimings page;
         Ok (dict_get pt "_firstContentfulPaint" (VNum (PInt 0))))
        (fun _ => VNum (PInt 0)) in
    ((truthy_and_positive first_contentful_paint = Ok false /\
      fcp_cell = CStr "未捕获" /\ screen_cell = CStr "未捕获") \/
     (exists raw, first_contentful_paint = VNum raw /\ (0 < to_Q raw)%Q /\
                  fcp_cell = CNum (round2 raw) /\
                  screen_cell = CNum (round2 (num_add raw (PInt 300))))).
Proof.
  unfold read_page_timings. intros H.
  destruct (page_timings page) as [timings|]; [| discriminate]. cbn [bind] in H.
  set (navigation_start := dict_get timings "navigationStart" (VNum (PInt 0))) in *.
  destruct (py_gt navigation_start (PInt 0)) as [started|] eqn:Estart;
    [| discriminate]. cbn [bind] in H.
  destruct (if started then _ else _) as [dom_content_loaded|] eqn:Edom in H;
    [| discriminate]. cbn [bind] in H.
  destruct (if started then _ else _) as [load_event|] eqn:Eload in H;
    [| discriminate]. cbn [bind] in H.
  set (first_contentful_paint := try_except _ _) in *.
  destruct (page_url page) as [url|]; [| discriminate]. cbn [bind] in H.
  destruct (truthy_and_positive navigation_start) as [has_start|] eqn:Ehas;
    [| discriminate]. cbn [bind] in H.
  destruct (if has_start then _ else _) as [nav_cell|] eqn:Enav in H;
    [| discriminate]. cbn [bind] in H.
  destruct (py_ge dom_content_loaded (PInt 0)) as [dom_ok|] eqn:Edok;
    [| discriminate]. cbn [bind] in H.
  destruct (if dom_ok then _ else _) as [dom_cell|] eqn:Edc in H;
    [| discriminate]. cbn [bind] in H.
  destruct (py_ge load_event (PInt 0)) as [load_ok|] eqn:Elok;
    [| discriminate]. cbn [bind] in H.
  destruct (if load_ok then _ else _) as [load_cell|] eqn:Elc in H;
    [| discriminate]. cbn [bind] in H.
  destruct (truthy_and_positive first_contentful_paint) as [has_fcp|] eqn:Efcp;
    [| discriminate]. cbn [bind] in H.
  destruct (if has_fcp then _ else _) as [fcp_cell|] eqn:Efc in H;
    [| discriminate]. cbn [bind] in H.
  destruct (if has_fcp then _ else _) as [screen_cell|] eqn:Esc in H;
    [| discriminate]. cbn [bind] in H.
  injection H as <-.
  assert (Hnav : exists t, nav_cell = CStr t /\ (has_start = false -> t = "无")).
  { destruct has_start.
    - destruct (strftime_local _) as [t|]; [| discriminate].
      cbn [bind] in Enav. injection Enav as <-. by exists t.
    - injection Enav as <-. by exists "无". }
  destruct Hnav as (nav_text & -> & Hnone).
  exists timings, url, nav_text, dom_cell, load_cell, fcp_cell, screen_cell.
  split; [done|]. split; [done|]. split; [done|].
  split; [| split; [exact (offset_cell_nonneg _ _ _ Edok Edc) |
                    split; [exact (offset_cell_nonneg _ _ _ Elok Elc) |]]].
  - exists started. split; [done|]. intros ->.
    injection Edom as <-. injection Eload as <-.
    cbn [py_ge] in Edok, Elok. injection Edok as <-. injection Elok as <-.
    cbn [py_round2 bind] in Edc, Elc. injection Edc as <-. injection Elc as <-.
    split; [| done]. apply Hnone.
    unfold truthy_and_positive in Ehas. destruct (truthy navigation_start).
    + rewrite Estart in Ehas. by injection Ehas.
    + by injection Ehas.
  - cbv zeta. fold first_contentful_paint.
    destruct (paint_cells _ _ _ _ _ Efcp Efc Efcp Esc)
      as [(-> & -> & ->) | Hraw]; [left; done | by right].
Qed.

(** The three outcomes of [analyze_page_timings]. *)
Lemma analyze_page_timings_cases (strftime_local : Q -> result string)
    (pages : list HarPage) (entries : list Entry) :
  let d := analyze_page_timings strftime_local pages entries in
  (exists page rest, pages = page :: rest /\
                     read_page_timings strftime_local page = Ok d) \/
  (exists first_entry rest, entries = first_entry :: rest /\
                            d = degraded_page_timings (first_entry_url first_entry)) \/
  (entries = [] /\ d = no_page_timings).
Proof.
  intros d. subst d. unfold analyze_page_timings.
  assert (Hfb : (exists first_entry rest,
                    entries = first_entry :: rest /\
                    page_timings_fallback entries
                    = degraded_page_timings (first_entry_url first_entry)) \/
                (entries = [] /\ page_timings_fallback entries = no_page_timings)).
  { destruct entries as [|e es]; [by right | left; by exists e, es]. }
  destruct pages as [|page rest]; [by right|].
  destruct (read_page_timings strftime_local page) as [d|] eqn:E;
    cbn [try_except]; [left; by exists page, rest | by right].
Qed.

Lemma no_page_timings_lookup (k : string) (c : cell) :
  no_page_timings !! k = Some c -> k = "提示".
Proof.
  unfold no_page_timings. rewrite lookup_insert. case_decide; [done|].
  by rewrite lookup_empty.
Qed.


(** The DOM-ready and full-load offsets of a snapshot are never negative:
    each is a number that is at least 0, or the text "不可用". *)
Theorem offsets_are_never_negative (strftime_local : Q -> result string)
    (pages : list HarPage) (entries : list Entry) (k : string) (c : cell) :
  k = "DOM就绪时间(ms)" \/ k = "页面完全加载时间(ms)" ->
  analyze_page_timings strftime_local pages entries !! k = Some c ->
  c = CStr "不可用" \/ exists x, c = CNum x /\ (0 <= to_Q x)%Q.
Proof.
  intros Hk Hc.
  destruct (analyze_page_timings_cases strftime_local pages entries)
    as [(page & rest & _ & Hd) | [(e & es & _ & Hd) | [_ Hd]]].
  - apply read_page_timings_ok in Hd
      as (? & ? & ? & dom_cell & load_cell & ? & ? & _ & _ & Hd & _ & Hdom & Hload & _).
    rewrite Hd in Hc. right. destruct Hk as [-> | ->].
    + rewrite !lookup_insert_ne, lookup_insert_eq in Hc by discriminate.
      by injection Hc as <-.
    + rewrite !lookup_insert_ne, lookup_insert_eq in Hc by discriminate.
      by injection Hc as <-.
  - rewrite Hd in Hc. left.
    apply (degraded_page_timings_other _ _ _ Hc). by destruct Hk as [-> | ->].
  - rewrite Hd in Hc. apply no_page_timings_lookup in Hc.
    by destruct Hk as [-> | ->].
Qed.

Lemma offsets_are_never_negative_witness :
  CNum (PInt 500) = CStr "不可用" \/
  exists x, CNum (PInt 500) = CNum x /\ (0 <= to_Q x)%Q.
Proof.
  apply (offsets_are_never_negative strftime_fixed [page_with_timings]
           [entry_slow_ok] "DOM就绪时间(ms)" (CNum (PInt 500))).
  - by left.
  - vm_compute. reflexivity.
Defined.

(** The first-screen estimate follows the first contentful paint: both are
    "未捕获" together; a paint that is an integer [n] is positive and comes
    with the estimate [n + 300]; a paint that is a float is not negative
    and comes with an estimate that is a float of at least 300. *)
Theorem first_screen_follows_paint (strftime_local : Q -> result string)
    (pages : list HarPage) (entries : list Entry) :
  let d := analyze_page_timings strftime_local pages entries in
  (d !! "首次内容绘制FCP(ms)" = Some (CStr "未捕获") <->
   d !! "首屏加载时间(ms)" = Some (CStr "未捕获")) /\
  (forall n, d !! "首次内容绘制FCP(ms)" = Some (CNum (PInt n)) ->
     (0 < n)%Z /\
     d !! "首屏加载时间(ms)" = Some (CNum (PInt (n + 300)))) /\
  (forall q, d !! "首次内容绘制FCP(ms)" = Some (CNum (PFloat q)) ->
     (0 <= q)%Q /\
     exists y, d !! "首屏加载时间(ms)" = Some (CNum (PFloat y)) /\
               (300 <= y)%Q).
Proof.
  intros d.
  destruct (analyze_page_timings_cases strftime_local pages entries)
    as [(page & rest & _ & Hd) | [(e & es & _ & Hd) | [_ Hd]]]; fold d in Hd.
  - apply read_page_timings_ok in Hd
      as (? & ? & ? & ? & ? & fcp_cell & screen_cell & _ & _ & Hd & _ & _ & _ & Hp).
    cbv zeta in Hp.
    assert (Hf : d !! "首次内容绘制FCP(ms)" = Some fcp_cell).
    { rewrite Hd. rewrite !lookup_insert_ne by discriminate.
      apply lookup_insert_eq. }
    assert (Hs : d !! "首屏加载时间(ms)" = Some screen_cell).
    { rewrite Hd. rewrite !lookup_insert_ne by discriminate.
      apply lookup_insert_eq. }
    rewrite Hf, Hs.
    destruct Hp as [(_ & -> & ->) | (raw & _ & Hraw & -> & ->)].
    + split; [done | split; discriminate].
    + split; [split; discriminate|].
      destruct raw as [n|q0]; cbn [round2 num_add to_Q] in *.
      * split; [| discriminate]. intros m [= <-].
        split; [by rewrite Zlt_Qlt | done].
      * split; [discriminate|]. intros q [= <-]. split.
        -- apply (round2_nonneg (PFloat q0)). cbn [to_Q]. by apply Qlt_le_weak.
        -- eexists. split; [reflexivity|].
           apply (round2_ge_int 300 (PFloat (q0 + inject_Z 300))).
           cbn [to_Q]. unfold inject_Z in *. lra.
  - rewrite Hd.
    split; [split; vm_compute; discriminate | split; vm_compute; discriminate].
  - rewrite Hd.
    split; [split; vm_compute; discriminate | split; vm_compute; discriminate].
Qed.

(** Without a positive navigation start the two offsets are 0 and the
    start time is "无", whatever the event ends hold. *)
Theorem no_navigation_start_gives_zero_offsets
    (strftime_local : Q -> result string) (page : HarPage)
    (timings : gmap string pyval) (d : gmap string cell) :
  page_timings page = Ok timings ->
  (timings !! "navigationStart" = None \/
   exists x, timings !! "navigationStart" = Some (VNum x) /\ (to_Q x <= 0)%Q) ->
  read_page_timings strftime_local page = Ok d ->
  d !! "导航开始时间" = Some (CStr "无") /\
  d !! "DOM就绪时间(ms)" = Some (CNum (PInt 0)) /\
  d !! "页面完全加载时间(ms)" = Some (CNum (PInt 0)).
Proof.
  intros Ht Hstart Hd.
  apply read_page_timings_ok in Hd
    as (timings' & ? & nav & dc & lc & ? & ? & Ht' & _ & -> &
        (started & Hs & Hzero) & _).
  rewrite Ht in Ht'. injection Ht' as <-.
  assert (started = false) as ->.
  { unfold dict_get in Hs.
    destruct Hstart as [Hn | (v & Hn & Hv)]; rewrite Hn in Hs;
      cbn [default from_option id py_gt] in Hs;
      injection Hs as <-; [reflexivity|].
    by apply num_gtb_false. }
  destruct (Hzero eq_refl) as (-> & -> & ->).
  rewrite !(lookup_insert_ne _ "页面URL") by discriminate.
  rewrite lookup_insert_eq.
  rewrite !(lookup_insert_ne _ "导航开始时间") by discriminate.
  rewrite lookup_insert_eq.
  rewrite !(lookup_insert_ne _ "DOM就绪时间(ms)") by discriminate.
  by rewrite lookup_insert_eq.
Qed.

Lemma no_navigation_start_gives_zero_offsets_witness :
  let d := analyze_page_timings strftime_fixed [page_without_start] [] in
  d !! "导航开始时间" = Some (CStr "无") /\
  d !! "DOM就绪时间(ms)" = Some (CNum (PInt 0)) /\
  d !! "页面完全加载时间(ms)" = Some (CNum (PInt 0)).
Proof.
  apply (no_navigation_start_gives_zero_offsets strftime_fixed page_without_start
           (<["loadEventEnd" := VStr "late"]> ∅)).
  - reflexivity.
  - left. reflexivity.
  - reflexivity.
Defined.

(** A page whose page timings cannot be read, or hold no first contentful
    paint, is still read: the paint and the first-screen estimate are
    "未捕获". *)
Theorem paint_not_captured_without_page_timings
    (strftime_local : Q -> result string) (page : HarPage) (d : gmap string cell) :
  ((exists e, page_pageTimings page = Raise e) \/
   (exists pt, page_pageTimings page = Ok pt /\
               pt !! "_firstContentfulPaint" = None)) ->
  read_page_timings strftime_local page = Ok d ->
  d !! "首次内容绘制FCP(ms)" = Some (CStr "未捕获") /\
  d !! "首屏加载时间(ms)" = Some (CStr "未捕获").
Proof.
  intros Hpt Hd.
  apply read_page_timings_ok in Hd
    as (? & ? & ? & ? & ? & fcp_cell & screen_cell & _ & _ & -> & _ & _ & _ & Hp).
  cbv zeta in Hp.
  assert (Hraw : try_except
                   (do pt <- page_pageTimings page;
                    Ok (dict_get pt "_firstContentfulPaint" (VNum (PInt 0))))
                   (fun _ => VNum (PInt 0)) = VNum (PInt 0)).
  { destruct Hpt as [(e & ->) | (pt & -> & Hnone)]; [done|].
    cbn [bind try_except]. unfold dict_get. by rewrite Hnone. }
  rewrite Hraw in Hp.
  destruct Hp as [(_ & -> & ->) | (raw & [= <-] & Hpos & _)].
  - split; rewrite !lookup_insert_ne by discriminate; apply lookup_insert_eq.
  - by vm_compute in Hpos.
Qed.

Lemma paint_not_captured_without_page_timings_witness :
  let d := analyze_page_timings strftime_fixed [page_without_start] [] in
  d !! "首次内容绘制FCP(ms)" = Some (CStr "未捕获") /\
  d !! "首屏加载时间(ms)" = Some (CStr "未捕获").
Proof.
  apply (paint_not_captured_without_page_timings strftime_fixed page_without_start).
  - left. by exists (AttributeError "pageTimings").
  - reflexivity.
Defined.

(** ** The rule engine: number, order and content of the findings *)

(** There are between one and five findings; either the single
    no-bottleneck finding, or findings of distinct rules in the order of
    the rules. *)
Theorem findings_follow_rule_order (df : DataFrame) (summary : list (string * cell)) :
  exists fs,
    identify_bottlenecks df summary = Ok fs /\
    (1 <= length fs <= 5)%nat /\
    (fs = [no_bottleneck] \/
     sublist (map b_type fs) (map rule_type all_rules)).
Proof.
  eexists. split; [apply identify_bottlenecks_fired|].
  unfold fired_findings. cbn [all_rules flat_map].
  destruct (fires SlowRule summary), (fires RequestsRule summary),
    (fires ErrorRule summary), (fires LatencyRule summary),
    (fires FcpRule summary); cbn [app length map];
    (split; [lia|]); try (left; reflexivity); right;
    cbn [rule_finding b_type slow_finding requests_finding error_finding
         latency_finding fcp_finding];
    vm_compute;
    repeat first [apply sublist_nil | apply sublist_skip | apply sublist_cons].
Qed.

(** Every finding other than the no-bottleneck one belongs to a rule whose
    metric is a number above the threshold, and its description holds that
    number. *)
Theorem rule_findings_carry_their_value
    (df : DataFrame) (summary : list (string * cell)) :
  exists fs,
    identify_bottlenecks df summary = Ok fs /\
    forall f, f ∈ fs ->
      f = no_bottleneck \/
      exists k x,
        f = rule_finding k (CNum x) /\
        metric k summary = CNum x /\
        (to_Q (rule_threshold k) < to_Q x)%Q /\
        In (Val (CNum x)) (b_desc f).
Proof.
  eexists. split; [apply identify_bottlenecks_fired|].
  intros f [Hf | [_ ->]]%elem_of_reported; [right | by left].
  apply elem_of_fired_findings in Hf as (k & Hk & ->).
  apply fires_metric_above in Hk as (x & Hx & Hgt).
  exists k, x. rewrite Hx. repeat split; try done.
  destruct k; cbn; tauto.
Qed.

(** ** From the entries to the report *)

Lemma analyze_request_details_cons (e : Entry) (es : list Entry) :
  analyze_request_details (e :: es)
  = mkDataFrame record_keys
      (request_record 1 e :: zip_with request_record (seq 2 (length es)) es).
Proof.
  unfold analyze_request_details. by rewrite analyze_loop_spec.
Qed.

Lemma ordinary_total (idx : nat) (entry : Entry) :
  ordinary_entry entry = true ->
  beyond_64_bits (r_total (request_record idx entry)) = false /\
  unsigned_only (r_total (request_record idx entry)) = false.
Proof.
  unfold ordinary_entry, request_record. cbn [r_total].
  intros [[[[Ht _]%andb_true_iff _]%andb_true_iff _]%andb_true_iff _]%andb_true_iff.
  destruct (e_time entry) as [[z|q]|];
    cbn [default from_option id round2 beyond_64_bits unsigned_only ordinary_field] in *;
    [| done | done].
  apply ordinary_number_range in Ht.
  unfold int64_min, int64_max, uint64_max.
  split; [apply orb_false_iff; split|]; apply Z.ltb_ge; lia.
Qed.

(** The totals of entries of ordinary size make a numeric column. *)
Lemma ordinary_totals_numeric (e : Entry) (es : list Entry) :
  forallb ordinary_entry (e :: es) = true ->
  numeric_dtype (map r_total (df_rows (analyze_request_details (e :: es)))) = true.
Proof.
  intros H.
  assert (Hrows : forall x,
             In x (map r_total (df_rows (analyze_request_details (e :: es)))) ->
             beyond_64_bits x = false /\ unsigned_only x = false).
  { intros x (r & <- & Hr)%in_map_iff.
    rewrite request_rows in Hr.
    apply list_elem_of_In, elem_of_zip_with in Hr as (idx & entry & -> & _ & He).
    apply ordinary_total. rewrite forallb_forall in H.
    by apply H, list_elem_of_In. }
  revert Hrows. rewrite analyze_request_details_cons. cbn [df_rows map].
  intros Hrows. unfold numeric_dtype.
  assert (H1 : forall f : pynum -> bool,
             (forall x, In x (r_total (request_record 1 e)
                              :: map r_total (zip_with request_record
                                                (seq 2 (length es)) es)) ->
                        f x = false) ->
             existsb f (r_total (request_record 1 e)
                        :: map r_total (zip_with request_record
                                          (seq 2 (length es)) es)) = false).
  { intros f Hf. apply not_true_is_false.
    intros (x & Hx & Hfx)%existsb_exists. by rewrite (Hf x Hx) in Hfx. }
  rewrite (H1 beyond_64_bits) by (intros x Hx; by apply Hrows).
  rewrite (H1 unsigned_only) by (intros x Hx; by apply Hrows).
  reflexivity.
Qed.

Lemma length_insert_desc {A : Type} (gtb : A -> A -> bool) (x : A) (l : list A) :
  length (insert_desc gtb x l) = S (length l).
Proof.
  induction l as [|y ys IH]; [done|]. cbn [insert_desc].
  destruct (gtb y x); cbn [length]; [by rewrite IH | done].
Qed.

Lemma length_sort_desc {A : Type} (gtb : A -> A -> bool) (l : list A) :
  length (sort_desc gtb l) = length l.
Proof.
  induction l as [|x l IH]; [done|]. unfold sort_desc in *. cbn [fold_right].
  by rewrite length_insert_desc, IH.
Qed.

Lemma length_top3_urls (rows : list RequestRecord) :
  length (top3_urls rows) = Nat.min 3 (length rows).
Proof.
  unfold top3_urls. by rewrite length_map, length_firstn, length_sort_desc.
Qed.

(** The summary of a request table with at least one row and a numeric
    column of totals. *)
Lemma generate_summary_of_rows (r : RequestRecord) (rest : list RequestRecord)
    (page_timings : gmap string cell) :
  let rows := r :: rest in
  numeric_dtype (map r_total rows) = true ->
  generate_summary (mkDataFrame record_keys rows) page_timings
  = Ok (combine summary_names
          [cell_of_nat (length rows);
           cell_of_nat (length (List.filter (String.eqb "是") (map r_slow rows)));
           cell_of_nat (length (List.filter (String.eqb "是") (map r_error rows)));
           CNum (round2 (mean (map r_total rows)));
           dict_get page_timings "页面完全加载时间(ms)" (CNum (PInt 0));
           dict_get page_timings "DOM就绪时间(ms)" (CNum (PInt 0));
           dict_get page_timings "首次内容绘制FCP(ms)" (CStr "未捕获");
           CStr (dist_str (value_counts (map r_type rows)));
           CStr (dist_str (value_counts (map r_domain rows)));
           CStr (String.concat "; " (map shown_url (top3_urls rows)))]).
Proof.
  intros rows Hnum.
  assert (Htop : top3_urls rows <> []).
  { intros H. pose proof (length_top3_urls rows) as Hlen.
    rewrite H in Hlen. by destruct rest. }
  unfold generate_summary, df_getitem, df_nlargest, df_len.
  cbn [df_columns df_rows].
  assert (H1 : bool_decide ("慢资源标记" ∈ record_keys) = true) by reflexivity.
  assert (H2 : bool_decide ("是否错误请求" ∈ record_keys) = true) by reflexivity.
  assert (H3 : bool_decide ("总耗时(ms)" ∈ record_keys) = true) by reflexivity.
  assert (H4 : bool_decide ("资源类型" ∈ record_keys) = true) by reflexivity.
  assert (H5 : bool_decide ("域名" ∈ record_keys) = true) by reflexivity.
  assert (H6 : bool_decide ("资源URL" ∈ record_keys) = true) by reflexivity.
  rewrite H1, H2, H3, H4, H5, Hnum.
  change (0 <? length rows)%nat with true.
  cbn [bind df_columns df_rows]. rewrite H6. cbn [bind].
  do 2 f_equal. unfold summary_names. cbn [combine]. do 9 f_equal.
  unfold top3_urls in Htop |- *. unfold shown_url.
  destruct (map r_url _) as [|u us] in Htop |- *; [done | reflexivity].
Qed.

Lemma generate_summary_rows (e : Entry) (es : list Entry)
    (page_timings : gmap string cell) :
  forallb ordinary_entry (e :: es) = true ->
  let df := analyze_request_details (e :: es) in
  exists values,
    generate_summary df page_timings = Ok (combine summary_names values) /\
    exists avg types domains,
      values =
        [cell_of_nat (length (e :: es));
         cell_of_nat (length (List.filter (String.eqb "是") (map r_slow (df_rows df))));
         cell_of_nat (length (List.filter (String.eqb "是") (map r_error (df_rows df))));
         CNum avg;
         dict_get page_timings "页面完全加载时间(ms)" (CNum (PInt 0));
         dict_get page_timings "DOM就绪时间(ms)" (CNum (PInt 0));
         dict_get page_timings "首次内容绘制FCP(ms)" (CStr "未捕获");
         CStr types; CStr domains;
         CStr (String.concat "; " (map shown_url (top3_urls (df_rows df))))].
Proof.
  intros Hord df.
  pose proof (ordinary_totals_numeric e es Hord) as Hnum.
  pose proof (request_rows_length (e :: es)) as Hlen.
  subst df. revert Hnum Hlen. rewrite analyze_request_details_cons.
  cbn [df_rows]. intros Hnum Hlen.
  eexists. split; [by apply generate_summary_of_rows|].
  rewrite Hlen. by eexists _, _, _.
Qed.

Lemma summary_metrics (c1 c2 c3 c4 c5 c6 c7 c8 c9 c10 : cell) :
  let rows := combine summary_names [c1; c2; c3; c4; c5; c6; c7; c8; c9; c10] in
  metric RequestsRule rows = c1 /\ metric SlowRule rows = c2 /\
  metric ErrorRule rows = c3 /\ metric LatencyRule rows = c4 /\
  metric FcpRule rows = c7.
Proof.
  unfold metric, dict_get, dict_of_rows, summary_names.
  cbn [combine fold_left fst snd rule_key rule_default].
  repeat split;
    rewrite ?lookup_insert_ne by discriminate; by rewrite lookup_insert_eq.
Qed.

(** Whatever the table, a summary that is produced holds the first
    contentful paint of the page snapshot, "未捕获" when the snapshot has
    none. *)
Lemma generate_summary_paint (df : DataFrame) (page_timings : gmap string cell)
    (summary : list (string * cell)) :
  generate_summary df page_timings = Ok summary ->
  metric FcpRule summary
  = dict_get page_timings "首次内容绘制FCP(ms)" (CStr "未捕获").
Proof.
  unfold generate_summary. intros H.
  repeat match type of H with
         | bind ?m _ = Ok _ =>
             destruct m; cbn [bind] in H; [| discriminate H]
         end.
  injection H as <-. apply summary_metrics.
Qed.

Lemma above_cell_of_nat (n : nat) (t : Z) :
  above (cell_of_nat n) (PInt t) <-> (t < Z.of_nat n)%Z.
Proof.
  unfold above, cell_of_nat. split.
  - intros (x & [= <-] & H). cbn [to_Q] in H. by rewrite Zlt_Qlt.
  - intros H. exists (PInt (Z.of_nat n)). split; [done|].
    cbn [to_Q]. by rewrite <- Zlt_Qlt.
Qed.

Lemma count_positive {A : Type} (f : A -> bool) (l : list A) :
  (0 < Z.of_nat (length (List.filter f l)))%Z <-> exists x, In x l /\ f x = true.
Proof.
  split.
  - destruct (List.filter f l) as [|x l'] eqn:E; [cbn; lia|]. intros _.
    exists x. apply filter_In. rewrite E. by left.
  - intros (x & Hx). apply filter_In in Hx.
    destruct (List.filter f l); [done | cbn; lia].
Qed.

(** The records of a request table are the records of the entries. *)
Lemma record_of_some_entry (entries : list Entry) (r : RequestRecord) :
  In r (df_rows (analyze_request_details entries)) ->
  exists idx entry, In entry entries /\ r = request_record idx entry.
Proof.
  unfold analyze_request_details, DataFrame_of. cbn [df_rows].
  rewrite analyze_loop_spec, app_nil_l.
  intros (idx & entry & -> & _ & He)%list_elem_of_In%elem_of_zip_with.
  exists idx, entry. split; [by apply list_elem_of_In | done].
Qed.

Lemma entry_has_record (entries : list Entry) (entry : Entry) :
  In entry entries ->
  exists idx, In (request_record idx entry) (df_rows (analyze_request_details entries)).
Proof.
  intros (i & Hi)%list_elem_of_In%list_elem_of_lookup_1.
  exists (S i). apply list_elem_of_In, (list_elem_of_lookup_2 _ i).
  rewrite request_rows. by apply (zip_with_record_lookup entries 1 i entry).
Qed.

(** For a trace with at least one entry, all of ordinary size, the report
    names slow resources exactly when some entry took more than 500 ms, too
    many requests exactly when there are more than 80 entries, and error
    requests exactly when some entry has a status of 400 or more. *)
Theorem report_findings_reflect_entries
    (strftime_local : Q -> result string)
    (pages : list HarPage) (e : Entry) (es : list Entry) :
  forallb ordinary_entry (e :: es) = true ->
  let entries := e :: es in
  exists request_df summary fs,
    run_analyze_request_details entries = Ok request_df /\
    generate_summary request_df
      (analyze_page_timings strftime_local pages entries) = Ok summary /\
    identify_bottlenecks request_df summary = Ok fs /\
    ((exists f, f ∈ fs /\ b_type f = rule_type SlowRule) <->
     (exists entry, In entry entries /\
                    (500 < to_Q (default (PInt 0) (e_time entry)))%Q)) /\
    ((exists f, f ∈ fs /\ b_type f = rule_type RequestsRule) <->
     (80 < length entries)%nat) /\
    ((exists f, f ∈ fs /\ b_type f = rule_type ErrorRule) <->
     (exists entry,
         In entry entries /\
         (400 <= to_Q (default (PInt 0)
                         (resp_status (default empty_response (e_response entry)))))%Q)).
Proof.
  intros Hord entries.
  set (request_df := analyze_request_details entries).
  destruct (generate_summary_rows e es
              (analyze_page_timings strftime_local pages entries) Hord)
    as (values & Hsum & avg & types & domains & ->).
  fold entries request_df in Hsum.
  exists request_df. eexists _, _.
  split; [by apply ordinary_entries_run|]. split; [exact Hsum|].
  split; [apply identify_bottlenecks_fired|].
  rewrite !reported_type_fires, !fires_metric_above.
  match type of Hsum with
  | _ = Ok (combine summary_names [?c1; ?c2; ?c3; ?c4; ?c5; ?c6; ?c7; ?c8; ?c9; ?c10]) =>
      destruct (summary_metrics c1 c2 c3 c4 c5 c6 c7 c8 c9 c10)
        as (Hreq & Hslow & Herr & _ & _)
  end.
  cbv zeta in Hreq, Hslow, Herr. rewrite Hreq, Hslow, Herr.
  cbn [rule_threshold]. rewrite !above_cell_of_nat, !count_positive.
  split; [| split; [lia|]].
  - split.
    + intros (flag & (r & <- & Hr)%in_map_iff & Hflag).
      apply record_of_some_entry in Hr as (idx & entry & He & ->).
      exists entry. split; [done|].
      unfold request_record in Hflag. cbn [r_slow] in Hflag.
      destruct (num_gtb _ _) eqn:E in Hflag; [| discriminate Hflag].
      by apply num_gtb_true in E.
    + intros (entry & He & Hslow').
      destruct (entry_has_record _ _ He) as (idx & Hr).
      exists (r_slow (request_record idx entry)).
      split; [by apply in_map|].
      unfold request_record. cbn [r_slow].
      apply (num_gtb_true _ (PInt 500)) in Hslow'. by rewrite Hslow'.
  - split.
    + intros (flag & (r & <- & Hr)%in_map_iff & Hflag).
      apply record_of_some_entry in Hr as (idx & entry & He & ->).
      exists entry. split; [done|].
      unfold request_record in Hflag. cbn [r_error] in Hflag.
      destruct (num_geb _ _) eqn:E in Hflag; [| discriminate Hflag].
      unfold num_geb in E. by apply Qle_bool_iff in E.
    + intros (entry & He & Hst).
      destruct (entry_has_record _ _ He) as (idx & Hr).
      exists (r_error (request_record idx entry)).
      split; [by apply in_map|].
      unfold request_record. cbn [r_error]. unfold num_geb.
      apply Qle_bool_iff in Hst. cbn [to_Q]. unfold inject_Z. by rewrite Hst.
Qed.

Lemma report_findings_reflect_entries_witness :
  let entries := [entry_slow_ok] in
  exists request_df summary fs,
    run_analyze_request_details entries = Ok request_df /\
    generate_summary request_df
      (analyze_page_timings strftime_fixed [page_with_timings] entries)
    = Ok summary /\
    identify_bottlenecks request_df summary = Ok fs /\
    ((exists f, f ∈ fs /\ b_type f = rule_type SlowRule) <->
     (exists entry, In entry entries /\
                    (500 < to_Q (default (PInt 0) (e_time entry)))%Q)) /\
    ((exists f, f ∈ fs /\ b_type f = rule_type RequestsRule) <->
     (80 < length entries)%nat) /\
    ((exists f, f ∈ fs /\ b_type f = rule_type ErrorRule) <->
     (exists entry,
         In entry entries /\
         (400 <= to_Q (default (PInt 0)
                         (resp_status (default empty_response (e_response entry)))))%Q)).
Proof.
  apply (report_findings_reflect_entries strftime_fixed [page_with_timings]
           entry_slow_ok []).
  reflexivity.
Defined.

(** An integer total beyond 64 bits makes the column of totals a column of
    type [object], and the summary raises on it. *)
Example summary_of_huge_total :
  run_analyze_request_details [entry_huge_time]
  = Ok (analyze_request_details [entry_huge_time]) /\
  generate_summary (analyze_request_details [entry_huge_time]) ∅
  = Raise (TypeError "nlargest").
Proof. split; vm_compute; reflexivity. Qed.

Lemma chosen_path_eq (generated_path : string) (output_path : option string) :
  match output_path with
  | Some "" => generated_path
  | Some (String a s as path) => path
  | None => generated_path
  end = chosen_path generated_path output_path.
Proof. by destruct output_path as [[|]|]. Qed.

(** A trace without entries gives no report: the export returns [None],
    whatever the pages, the writer and the path asked for. *)
Theorem export_of_empty_trace_fails
    (strftime_local : Q -> result string)
    (write_excel : string -> DataFrame -> gmap string cell ->
                   list (string * cell) -> list Finding -> result unit)
    (generated_path : string) (pages : list HarPage)
    (output_path : option string) :
  export_to_excel strftime_local write_excel generated_path pages [] output_path
  = None.
Proof. reflexivity. Qed.

(** For a trace with at least one entry, all of ordinary size, the
    analysis itself does not fail: the export returns the path asked for
    (the generated one when none or the empty one was given) if the writer
    succeeds, and [None] only if the writer raises. *)
Theorem export_of_nonempty_trace
    (strftime_local : Q -> result string)
    (write_excel : string -> DataFrame -> gmap string cell ->
                   list (string * cell) -> list Finding -> result unit)
    (generated_path : string) (pages : list HarPage)
    (e : Entry) (es : list Entry) (output_path : option string) :
  forallb ordinary_entry (e :: es) = true ->
  let entries := e :: es in
  let page_timings := analyze_page_timings strftime_local pages entries in
  let path := chosen_path generated_path output_path in
  exists request_df summary fs,
    run_analyze_request_details entries = Ok request_df /\
    generate_summary request_df page_timings = Ok summary /\
    identify_bottlenecks request_df summary = Ok fs /\
    export_to_excel strftime_local write_excel generated_path pages entries
                    output_path
    = match write_excel path request_df page_timings summary fs with
      | Ok _ => Some path
      | Raise _ => None
      end.
Proof.
  intros Hord entries page_timings path.
  set (request_df := analyze_request_details entries).
  destruct (generate_summary_rows e es page_timings Hord) as (values & Hsum & _).
  fold entries request_df in Hsum.
  exists request_df. eexists _, _.
  split; [by apply ordinary_entries_run|]. split; [exact Hsum|].
  split; [apply identify_bottlenecks_fired|].
  unfold export_to_excel. rewrite (ordinary_entries_run entries Hord).
  cbn [bind]. fold request_df page_timings.
  rewrite Hsum. cbn [bind]. rewrite identify_bottlenecks_fired. cbn [bind].
  rewrite chosen_path_eq. fold path.
  by destruct (write_excel path _ _ _ _).
Qed.

Lemma export_of_nonempty_trace_witness :
  let entries := [entry_slow_ok] in
  let page_timings := analyze_page_timings strftime_fixed [] entries in
  let path := chosen_path "trace_性能分析报告.xlsx" (Some "") in
  exists request_df summary fs,
    run_analyze_request_details entries = Ok request_df /\
    generate_summary request_df page_timings = Ok summary /\
    identify_bottlenecks request_df summary = Ok fs /\
    export_to_excel strftime_fixed write_nothing "trace_性能分析报告.xlsx" []
                    entries (Some "")
    = match write_nothing path request_df page_timings summary fs with
      | Ok _ => Some path
      | Raise _ => None
      end.
Proof.
  apply (export_of_nonempty_trace strftime_fixed write_nothing
           "trace_性能分析报告.xlsx" [] entry_slow_ok [] (Some "")).
  reflexivity.
Defined.

Lemma analyze_page_timings_fallback (strftime_local : Q -> result string)
    (pages : list HarPage) (entries : list Entry) :
  (pages = [] \/
   exists page rest ex,
     pages = page :: rest /\ read_page_timings strftime_local page = Raise ex) ->
  analyze_page_timings strftime_local pages entries = page_timings_fallback entries.
Proof.
  intros [-> | (page & rest & ex & -> & Hraise)]; [done|].
  unfold analyze_page_timings. by rewrite Hraise.
Qed.

(** When no page can be read, no report holds the first-contentful-paint
    finding: none that is computed does, and for a trace with at least one
    entry, all of ordinary size, the report is computed. *)
Theorem no_paint_finding_without_page
    (strftime_local : Q -> result string)
    (pages : list HarPage) (entries : list Entry) :
  (pages = [] \/
   exists page rest ex,
     pages = page :: rest /\ read_page_timings strftime_local page = Raise ex) ->
  let page_timings := analyze_page_timings strftime_local pages entries in
  (forall request_df summary fs,
     generate_summary request_df page_timings = Ok summary ->
     identify_bottlenecks request_df summary = Ok fs ->
     forall f, f ∈ fs -> b_type f <> rule_type FcpRule) /\
  (entries <> [] -> forallb ordinary_entry entries = true ->
   exists request_df summary fs,
     run_analyze_request_details entries = Ok request_df /\
     generate_summary request_df page_timings = Ok summary /\
     identify_bottlenecks request_df summary = Ok fs).
Proof.
  intros Hpages page_timings. split.
  - intros request_df summary fs Hsum Hfs f Hf Hty.
    rewrite identify_bottlenecks_fired in Hfs. injection Hfs as <-.
    assert (Hfires : fires FcpRule summary = true).
    { apply reported_type_fires. by exists f. }
    unfold fires in Hfires.
    rewrite (generate_summary_paint _ _ _ Hsum) in Hfires.
    subst page_timings.
    rewrite (analyze_page_timings_fallback _ _ entries Hpages) in Hfires.
    destruct entries; by vm_compute in Hfires.
  - intros Hne Hord. destruct entries as [|e es]; [done|].
    destruct (generate_summary_rows e es page_timings Hord) as (values & Hsum & _).
    eexists _, _, _. split; [by apply ordinary_entries_run|].
    split; [exact Hsum|]. apply identify_bottlenecks_fired.
Qed.

Lemma no_paint_finding_without_page_witness :
  let page_timings :=
    analyze_page_timings strftime_fixed [page_without_timings] [entry_slow_ok] in
  (forall request_df summary fs,
     generate_summary request_df page_timings = Ok summary ->
     identify_bottlenecks request_df summary = Ok fs ->
     forall f, f ∈ fs -> b_type f <> rule_type FcpRule) /\
  ([entry_slow_ok] <> [] -> forallb ordinary_entry [entry_slow_ok] = true ->
   exists request_df summary fs,
     run_analyze_request_details [entry_slow_ok] = Ok request_df /\
     generate_summary request_df page_timings = Ok summary /\
     identify_bottlenecks request_df summary = Ok fs).
Proof.
  apply (no_paint_finding_without_page strftime_fixed [page_without_timings]
           [entry_slow_ok]).
  right. exists page_without_timings, [], (AttributeError "timings").
  split; reflexivity.
Defined.

(** ** The batch loop *)

Lemma batch_loop_invariant (analyze_file : string -> result (option string))
    (har_files : list string) :
  forall results failed_files,
  exists reports failures,
    batch_loop analyze_file har_files results failed_files
    = (results ++ reports, failed_files ++ failures) /\
    (length reports + length failures = length har_files)%nat /\
    map fst reports ++ failures ≡ₚ har_files /\
    sublist (map fst reports) har_files /\
    sublist failures har_files /\
    (forall f p, (f, p) ∈ reports -> report_of analyze_file f = Some p) /\
    (forall f, f ∈ failures -> report_of analyze_file f = None).
Proof.
  induction har_files as [|f fs IH]; intros results failed_files.
  - exists [], []. cbn [batch_loop]. rewrite !app_nil_r.
    split; [done|]. split; [done|]. split; [done|].
    split; [constructor|]. split; [constructor|].
    split; [intros g p H | intros g H]; by apply elem_of_nil in H.
  - cbn [batch_loop].
    assert (Hfail : report_of analyze_file f = None ->
              exists reports failures,
                batch_loop analyze_file fs results (failed_files ++ [f])
                = (results ++ reports, failed_files ++ failures) /\
                (length reports + length failures = length (f :: fs))%nat /\
                map fst reports ++ failures ≡ₚ f :: fs /\
                sublist (map fst reports) (f :: fs) /\
                sublist failures (f :: fs) /\
                (forall g p, (g, p) ∈ reports -> report_of analyze_file g = Some p) /\
                (forall g, g ∈ failures -> report_of analyze_file g = None)).
    { intros Hnone.
      destruct (IH results (failed_files ++ [f]))
        as (reports & failures & -> & Hlen & Hperm & Hsub1 & Hsub2 & Hok & Hko).
      exists reports, (f :: failures). rewrite <- app_assoc.
      split; [done|]. split; [cbn [length]; lia|].
      split; [by rewrite <- Permutation_middle, Hperm|].
      split; [by apply sublist_cons|]. split; [by apply sublist_skip|].
      split; [done|].
      intros g [-> | Hg]%elem_of_cons; [done | by apply Hko]. }
    unfold report_of in Hfail.
    destruct (analyze_file f) as [[p|]|] eqn:Ef; [| by apply Hfail..].
    destruct (negb (String.eqb p "")) eqn:Ep; [| by apply Hfail].
    destruct (IH (results ++ [(f, p)]) failed_files)
      as (reports & failures & -> & Hlen & Hperm & Hsub1 & Hsub2 & Hok & Hko).
    exists ((f, p) :: reports), failures. rewrite <- app_assoc.
    split; [done|]. split; [cbn [length]; lia|].
    split; [cbn [map fst app]; by rewrite Hperm|].
    split; [by apply sublist_skip|]. split; [by apply sublist_cons|].
    split; [| done].
    intros g q [[= -> ->] | Hg]%elem_of_cons; [| by apply Hok].
    unfold report_of. by rewrite Ef, Ep.
Qed.

(** The batch loop files every trace under exactly one of its two lists, in
    the order of the traces: under [results], with its report, when the
    analysis returned a path that is not empty, under [failed_files]
    otherwise.  A trace that fails does not stop the ones after it. *)
Theorem batch_loop_partitions_files
    (analyze_file : string -> result (option string)) (har_files : list string) :
  let out := batch_loop analyze_file har_files [] [] in
  (length (fst out) + length (snd out) = length har_files)%nat /\
  map fst (fst out) ++ snd out ≡ₚ har_files /\
  sublist (map fst (fst out)) har_files /\
  sublist (snd out) har_files /\
  (forall f p, (f, p) ∈ fst out -> analyze_file f = Ok (Some p) /\ p <> "") /\
  (forall f p, f ∈ snd out -> analyze_file f = Ok (Some p) -> p = "").
Proof.
  intros out. subst out.
  destruct (batch_loop_invariant analyze_file har_files [] [])
    as (reports & failures & -> & Hlen & Hperm & Hsub1 & Hsub2 & Hok & Hko).
  cbn [fst snd app].
  split; [done|]. split; [done|]. split; [done|]. split; [done|]. split.
  - intros f p Hin. apply Hok in Hin. unfold report_of in Hin.
    destruct (analyze_file f) as [[q|]|]; try discriminate.
    destruct (String.eqb q "") eqn:Eq; cbn [negb] in Hin; [discriminate|].
    injection Hin as ->. split; [done|]. by apply String.eqb_neq.
  - intros f p Hin Hf. apply Hko in Hin. unfold report_of in Hin.
    rewrite Hf in Hin.
    destruct (String.eqb p "") eqn:Eq; cbn [negb] in Hin; [| discriminate].
    by apply String.eqb_eq.
Qed.

Example batch_of_three_files :
  batch_loop analyze_by_name ["har/a.har"; "har/bad.har"; "har/z.har"] [] []
  = ([("har/a.har", "har/a.har.xlsx"); ("har/z.har", "har/z.har.xlsx")],
     ["har/bad.har"]).
Proof. reflexivity. Qed.

(** ** Loading a trace *)

Example load_of_sample_traces :
  _load_har_file (Ok trace_one_entry) = Ok trace_one_entry /\
  _load_har_file (Ok (JObject ∅)) = Raise (ValueError "HAR文件加载失败") /\
  _load_har_file (Ok (JArray [JString "log"]))
  = Raise (ValueError "HAR文件加载失败") /\
  _load_har_file (Raise (KeyError "file")) = Raise (ValueError "HAR文件加载失败").
Proof. repeat split; reflexivity. Qed.

(** [_load_har_file] raises nothing but its [ValueError], and it returns a
    value exactly when the file was read, the value is an object with a key
    "log", and "entries" is found in what that key holds; the value is
    returned as it was read. *)
Theorem load_har_file_validates (read_file : result json) :
  (forall data,
     _load_har_file read_file = Ok data <->
     read_file = Ok data /\
     exists fields log,
       data = JObject fields /\ fields !! "log" = Some log /\
       json_contains "entries" log = Ok true) /\
  (forall e, _load_har_file read_file = Raise e ->
             e = ValueError "HAR文件加载失败").
Proof.
  unfold _load_har_file. split.
  - intros data. destruct read_file as [d|e]; cbn [bind];
      [| split; [discriminate | by intros [[=] _]]].
    destruct d as [| b | x | s | items | fields]; cbn [json_contains bind];
      try (split; [discriminate | by intros [[= <-] (? & ? & [=] & _)]]).
    + destruct (contains "log" s); cbn [negb bind json_getitem];
        (split; [discriminate | by intros [[= <-] (? & ? & [=] & _)]]).
    + destruct (existsb _ items); cbn [negb bind json_getitem];
        (split; [discriminate | by intros [[= <-] (? & ? & [=] & _)]]).
    + cbn [json_getitem]. destruct (fields !! "log") as [log|] eqn:Elog.
      * rewrite bool_decide_eq_true_2 by done. cbn [negb bind].
        destruct (json_contains "entries" log) as [[|]|] eqn:Eent; cbn [bind negb].
        -- split; [intros [= <-]; split; [done|]; by exists fields, log|].
           by intros [[= <-] _].
        -- split; [discriminate|].
           intros [[= <-] (? & ? & [= <-] & Hl & He)]. congruence.
        -- split; [discriminate|].
           intros [[= <-] (? & ? & [= <-] & Hl & He)]. congruence.
      * rewrite bool_decide_eq_false_2 by (by intros [? ?]). cbn [negb bind].
        split; [discriminate|].
        intros [[= <-] (? & ? & [= <-] & Hl & _)]. congruence.
  - intros e H.
    destruct (do data <- read_file; _) in H; [discriminate | by injection H].
Qed.

Lemma load_har_file_finds_entries (read_file : result json)
    (fields : gmap string json) (log : json) :
  _load_har_file read_file = Ok (JObject fields) ->
  fields !! "log" = Some log ->
  json_contains "entries" log = Ok true.
Proof.
  unfold _load_har_file. intros H Hlog.
  destruct read_file as [d|]; [| discriminate]. cbn [bind] in H.
  destruct (json_contains "log" d) as [has_log|]; [| discriminate].
  cbn [bind] in H.
  destruct (if negb has_log then _ else _) as [[|]|] eqn:E in H;
    try discriminate.
  cbn [bind] in H. injection H as ->.
  destruct has_log; [| discriminate]. cbn [negb json_getitem] in E.
  rewrite Hlog in E. cbn [bind] in E.
  by destruct (json_contains "entries" log) as [[|]|].
Qed.

(** The three ways in which the reading through the library raises. *)
Lemma read_through_library_raises (HarParser : json -> result Parser)
    (har_data : json) :
  ((exists e, HarParser har_data = Raise e) \/
   (exists parser e,
      HarParser har_data = Ok parser /\ parser_pages parser = Raise e) \/
   (exists parser pages e,
      HarParser har_data = Ok parser /\ parser_pages parser = Ok pages /\
      (json_getitem (parser_har_data parser) "log" = Raise e \/
       exists log, json_getitem (parser_har_data parser) "log" = Ok log /\
                   json_getitem log "entries" = Raise e))) <->
  exists e, read_through_library HarParser har_data = Raise e.
Proof.
  unfold read_through_library. split.
  - intros [[e ->] | [(parser & e & -> & Hp) | (parser & pages & e & -> & Hp & Hl)]];
      cbn [bind].
    + by exists e.
    + rewrite Hp. by exists e.
    + rewrite Hp. cbn [bind].
      destruct Hl as [Hl | (log & Hl & Hl')]; rewrite Hl; cbn [bind];
        [| rewrite Hl']; by exists e.
  - intros [e H].
    destruct (HarParser har_data) as [parser|e0] eqn:Eparser;
      [| left; by exists e0].
    right. cbn [bind] in H.
    destruct (parser_pages parser) as [pages|e1] eqn:Epages;
      [| left; by exists parser, e1].
    right. cbn [bind] in H. exists parser, pages.
    destruct (json_getitem (parser_har_data parser) "log") as [log|e2] eqn:Elog;
      [| exists e2; split; [done | split; [done | by left]]].
    cbn [bind] in H.
    destruct (json_getitem log "entries") as [entries|e3] eqn:Eent;
      [discriminate H|].
    exists e3. split; [done|]. split; [done|]. right. by exists log.
Qed.

(** When the loaded trace holds an object under "log", [__init__] does not
    fail.  When any step of the reading through the library raises (the
    building of the parser, the reading of its pages, the reading of the
    entries from its data), the analyzer has no page and its entries are
    what "entries" holds in that object; otherwise it has the pages and the
    entries that the library gave. *)
Theorem init_falls_back_to_raw_entries
    (HarParser : json -> result Parser) (read_file : result json)
    (data : json) (fields log : gmap string json) :
  _load_har_file read_file = Ok data ->
  data = JObject fields ->
  fields !! "log" = Some (JObject log) ->
  exists analyzer entries,
    init HarParser read_file = Ok analyzer /\
    an_har_data analyzer = data /\
    log !! "entries" = Some entries /\
    (((exists e, HarParser data = Raise e) \/
      (exists parser e,
         HarParser data = Ok parser /\ parser_pages parser = Raise e) \/
      (exists parser pages e,
         HarParser data = Ok parser /\ parser_pages parser = Ok pages /\
         (json_getitem (parser_har_data parser) "log" = Raise e \/
          exists l, json_getitem (parser_har_data parser) "log" = Ok l /\
                    json_getitem l "entries" = Raise e))) ->
     an_pages analyzer = [] /\ an_entries analyzer = entries) /\
    (forall parser pages l ents,
       HarParser data = Ok parser -> parser_pages parser = Ok pages ->
       json_getitem (parser_har_data parser) "log" = Ok l ->
       json_getitem l "entries" = Ok ents ->
       an_pages analyzer = pages /\ an_entries analyzer = ents).
Proof.
  intros Hload -> Hlog.
  pose proof (load_har_file_finds_entries _ _ _ Hload Hlog) as Hent.
  cbn [json_contains] in Hent. injection Hent as Hent.
  apply bool_decide_eq_true_1 in Hent as [entries Hentries].
  unfold init. rewrite Hload. cbn [bind].
  destruct (read_through_library HarParser (JObject fields))
    as [[pages ents]|e] eqn:E.
  - exists (mkAnalyzer (JObject fields) pages ents), entries.
    split; [done|]. split; [done|]. split; [done|]. split.
    + intros [e He]%read_through_library_raises. by rewrite He in E.
    + intros parser pages' l ents' Hp Hpages Hl He.
      unfold read_through_library in E.
      rewrite Hp in E. cbn [bind] in E. rewrite Hpages in E. cbn [bind] in E.
      rewrite Hl in E. cbn [bind] in E. rewrite He in E. cbn [bind] in E.
      by injection E as -> ->.
  - cbn [json_getitem]. rewrite Hlog. cbn [bind json_getitem].
    rewrite Hentries. cbn [bind].
    exists (mkAnalyzer (JObject fields) [] entries), entries.
    split; [done|]. split; [done|]. split; [done|]. split.
    + intros _. by split.
    + intros parser pages' l ents' Hp Hpages Hl He.
      unfold read_through_library in E.
      rewrite Hp in E. cbn [bind] in E. rewrite Hpages in E. cbn [bind] in E.
      rewrite Hl in E. cbn [bind] in E. rewrite He in E. discriminate E.
Qed.

Lemma init_falls_back_to_raw_entries_witness :
  exists analyzer,
    init parser_keeps_log (Ok trace_one_entry) = Ok analyzer /\
    an_har_data analyzer = trace_one_entry /\
    an_pages analyzer = [] /\ an_entries analyzer = JArray [JObject ∅].
Proof.
  destruct (init_falls_back_to_raw_entries parser_keeps_log (Ok trace_one_entry)
              trace_one_entry
              (<["log" := JObject (<["entries" := JArray [JObject ∅]]> ∅)]> ∅)
              (<["entries" := JArray [JObject ∅]]> ∅)
              eq_refl eq_refl eq_refl)
    as (analyzer & entries & Hinit & Hdata & Hentries & Hfall & _).
  exists analyzer. split; [exact Hinit|]. split; [exact Hdata|].
  injection Hentries as <-. apply Hfall.
  right. right.
  exists (mkParser (Ok []) (JObject (<["entries" := JArray [JObject ∅]]> ∅))),
    [], (KeyError "log").
  split; [reflexivity|]. split; [reflexivity|]. left. reflexivity.
Defined.

(** The check of the loader is satisfied by a "log" that is a text or an
    array in which "entries" is found; when a step of the reading through
    the library then raises, [__init__] raises a [TypeError], which is not
    the loader's error. *)
Theorem init_raises_on_log_that_is_no_object
    (HarParser : json -> result Parser) (read_file : result json)
    (fields : gmap string json) (log : json) :
  _load_har_file read_file = Ok (JObject fields) ->
  fields !! "log" = Some log ->
  (forall members, log <> JObject members) ->
  (exists e, read_through_library HarParser (JObject fields) = Raise e) ->
  init HarParser read_file = Raise (TypeError "[]").
Proof.
  intros Hload Hlog Hobj [e He].
  unfold init. rewrite Hload. cbn [bind]. rewrite He. cbn [bind json_getitem].
  rewrite Hlog. cbn [bind].
  destruct log; try reflexivity. by destruct (Hobj fields0).
Qed.

Lemma init_raises_on_log_that_is_no_object_witness :
  init parser_without_pages (Ok trace_text_log) = Raise (TypeError "[]").
Proof.
  apply (init_raises_on_log_that_is_no_object parser_without_pages
           (Ok trace_text_log)
           (<["log" := JString "no entries here"]> ∅)
           (JString "no entries here")).
  - reflexivity.
  - reflexivity.
  - discriminate.
  - by exists (KeyError "pages").
Defined.

(** ** The summary table *)

(** For a trace with at least one entry, all of ordinary size, the summary
    has its ten rows in the fixed order; the request row counts the
    entries, the slow and error rows count at most as many, and the three
    page rows are the values of the page snapshot, or 0, 0 and "未捕获"
    where the snapshot has none. *)
Theorem summary_rows_of_nonempty_trace (e : Entry) (es : list Entry)
    (page_timings : gmap string cell) :
  forallb ordinary_entry (e :: es) = true ->
  exists summary slow errors,
    generate_summary (analyze_request_details (e :: es)) page_timings = Ok summary /\
    map fst summary = summary_names /\
    dict_of_rows summary !! "总请求数" = Some (cell_of_nat (S (length es))) /\
    dict_of_rows summary !! "慢资源数(>500ms)" = Some (cell_of_nat slow) /\
    dict_of_rows summary !! "错误请求数(4xx/5xx)" = Some (cell_of_nat errors) /\
    (slow <= S (length es))%nat /\ (errors <= S (length es))%nat /\
    dict_of_rows summary !! "页面完全加载时间(ms)"
    = Some (dict_get page_timings "页面完全加载时间(ms)" (CNum (PInt 0))) /\
    dict_of_rows summary !! "DOM就绪时间(ms)"
    = Some (dict_get page_timings "DOM就绪时间(ms)" (CNum (PInt 0))) /\
    dict_of_rows summary !! "首次内容绘制FCP(ms)"
    = Some (dict_get page_timings "首次内容绘制FCP(ms)" (CStr "未捕获")).
Proof.
  intros Hord.
  destruct (generate_summary_rows e es page_timings Hord)
    as (values & Hsum & avg & types & domains & ->).
  pose proof (request_rows_length (e :: es)) as Hlen. cbn [length] in Hlen.
  eexists _, _, _. split; [exact Hsum|].
  split; [reflexivity|].
  unfold dict_of_rows, summary_names. cbn [combine fold_left fst snd length].
  split; [rewrite !lookup_insert_ne by discriminate; apply lookup_insert_eq|].
  split; [rewrite !lookup_insert_ne by discriminate; apply lookup_insert_eq|].
  split; [rewrite !lookup_insert_ne by discriminate; apply lookup_insert_eq|].
  split.
  { etrans; [apply filter_length_le|]. by rewrite length_map, Hlen. }
  split.
  { etrans; [apply filter_length_le|]. by rewrite length_map, Hlen. }
  split; [rewrite !lookup_insert_ne by discriminate; apply lookup_insert_eq|].
  split; rewrite !lookup_insert_ne by discriminate; apply lookup_insert_eq.
Qed.

Lemma summary_rows_of_nonempty_trace_witness :
  exists summary slow errors,
    generate_summary (analyze_request_details [entry_slow_ok; entry_negative_dns])
                     no_page_timings = Ok summary /\
    map fst summary = summary_names /\
    dict_of_rows summary !! "总请求数" = Some (cell_of_nat 2) /\
    dict_of_rows summary !! "慢资源数(>500ms)" = Some (cell_of_nat slow) /\
    dict_of_rows summary !! "错误请求数(4xx/5xx)" = Some (cell_of_nat errors) /\
    (slow <= 2)%nat /\ (errors <= 2)%nat /\
    dict_of_rows summary !! "页面完全加载时间(ms)"
    = Some (dict_get no_page_timings "页面完全加载时间(ms)" (CNum (PInt 0))) /\
    dict_of_rows summary !! "DOM就绪时间(ms)"
    = Some (dict_get no_page_timings "DOM就绪时间(ms)" (CNum (PInt 0))) /\
    dict_of_rows summary !! "首次内容绘制FCP(ms)"
    = Some (dict_get no_page_timings "首次内容绘制FCP(ms)" (CStr "未捕获")).
Proof.
  apply (summary_rows_of_nonempty_trace entry_slow_ok [entry_negative_dns]
           no_page_timings).
  reflexivity.
Defined.

(** ** The row of the three slowest resources *)








Example shown_url_counts_characters :
  shown_url "https://example.com/图片/图片/图片/图片/图片/图片/图片/图片/logo.png?v=1"
  = "tps://example.com/图片/图片/图片/图片/图片/图片/图片/图片/logo.png" /\
  char_length "tps://example.com/图片/图片/图片/图片/图片/图片/图片/图片/logo.png"
  = 50%nat /\
  String.length "tps://example.com/图片/图片/图片/图片/图片/图片/图片/图片/logo.png"
  = 82%nat.
Proof. vm_compute. repeat split; reflexivity. Qed.


